(** * provider-harness: the Agent managed-resource adapter

    A shallow embedding of [internal/controller/agent/agent.go]: the
    connector ([Connect]) and the external client ([Observe], [Create],
    [Update], [Delete]) of the GitOps Agent resource, with the properties
    the specification states about them.

    Go packages become modules ([errors], [xpv1], [v1alpha1], [nextgen],
    [managed], [agent]); structs become records; a pointer that the code
    compares with [nil] or dereferences becomes an [option]; the [error]
    interface is an [option] whose [None] is [nil].  A Go function is a
    computation in the monad [Go]: it threads the managed resource behind
    the [mg] pointer and the trace of calls to the outside, and it ends by
    returning, by [os.Exit] (what [log.Fatal] does) or by a panic. *)

From Stdlib Require Import ZArith Strings.Byte.
From stdpp Require Import base option list strings gmap.

Local Open Scope string_scope.
Local Open Scope Z_scope.
Local Open Scope list_scope.

(** ** Package [github.com/pkg/errors] *)

Module errors.

(** A non-nil error value. [fundamental] is what [errors.New] builds,
    [withMessage] what [errors.Wrap] builds around a cause, [foreign] an
    error made by a collaborator (the SDK, the API server client). *)
Inductive value : Type :=
| fundamental (msg : string)
| withMessage (cause : value) (msg : string)
| foreign (text : string).

(** The [error] interface: [None] is [nil]. *)
Definition error : Type := option value.

Definition New (message : string) : error := Some (fundamental message).

(** [errors.Wrap] returns [nil] when [err] is [nil]. *)
Definition Wrap (err : error) (message : string) : error :=
  match err with
  | None => None
  | Some cause => Some (withMessage cause message)
  end.

(** The [Error()] method. *)
Fixpoint Error (v : value) : string :=
  match v with
  | fundamental msg => msg
  | withMessage cause msg => (msg ++ ": " ++ Error cause)%string
  | foreign text => text
  end.

Fixpoint Cause (v : value) : value :=
  match v with
  | withMessage cause _ => Cause cause
  | _ => v
  end.

End errors.

Abbreviation error := errors.error.

(** ** Package [crossplane-runtime/apis/common/v1] *)

Module xpv1.

Record Reference := { Name : string }.

Record ResourceSpec := { ProviderConfigReference : option Reference }.

Record Condition := {
  Type_ : string;
  Status : string;
  LastTransitionTime : Z;
  Reason : string;
  Message : string;
}.

Definition TypeReady : string := "Ready".
Definition ConditionTrue : string := "True".
Definition ConditionUnknown : string := "Unknown".
Definition ReasonAvailable : string := "Available".

(** [Available()] stamps the condition with [metav1.Now()], here [now]. *)
Definition Available (now : Z) : Condition :=
  {| Type_ := TypeReady; Status := ConditionTrue;
     LastTransitionTime := now; Reason := ReasonAvailable; Message := "" |}.

(** [Condition.Equal] ignores the transition time. *)
Definition Equal (c other : Condition) : bool :=
  String.eqb (Type_ c) (Type_ other) && String.eqb (Status c) (Status other)
  && String.eqb (Reason c) (Reason other) && String.eqb (Message c) (Message other).

Record ConditionedStatus := { Conditions : list Condition }.

Definition ResourceStatus : Type := ConditionedStatus.

(** [SetConditions] with one condition: an existing condition of the
    same type is kept when it is [Equal] and replaced otherwise; when
    there is none the new condition is appended. *)
Definition SetConditions (s : ConditionedStatus) (new : Condition) : ConditionedStatus :=
  let same_type existing := String.eqb (Type_ existing) (Type_ new) in
  let visit existing :=
    if same_type existing
    then (if Equal existing new then existing else new)
    else existing in
  {| Conditions :=
       if existsb same_type (Conditions s)
       then map visit (Conditions s)
       else Conditions s ++ [new] |}.

(** [GetCondition]: the first condition of type [ct], or an unknown one. *)
Definition GetCondition (s : ConditionedStatus) (ct : string) : Condition :=
  match find (fun c => String.eqb (Type_ c) ct) (Conditions s) with
  | Some c => c
  | None => {| Type_ := ct; Status := ConditionUnknown;
               LastTransitionTime := 0; Reason := ""; Message := "" |}
  end.

End xpv1.

(** ** Package [apis/gitops/v1alpha1]: the Agent resource *)

Module v1alpha1.

(** Modelled from the spec: the declaration of [AgentParameters] that
    [agent.go] compiles against is not among the sources (the
    declaration at hand has plain strings, while [agent.go] compares the
    fields with [nil] and dereferences them).  The desired spec has an
    identifier, account, project and organization identifiers, a
    description and a tag mapping; the string fields are pointers. *)
Record AgentParameters := {
  AccountIdentifier : option string;
  ProjectIdentifier : option string;
  OrgIdentifier : option string;
  Description : option string;
  Tags : gmap string string;
  Identifier : option string;
}.

Record AgentObservation := { State : string }.

Record AgentSpec := {
  ResourceSpec : xpv1.ResourceSpec;
  ForProvider : AgentParameters;
}.

Record AgentStatus := {
  ResourceStatus : xpv1.ResourceStatus;
  AtProvider : AgentObservation;
}.

Record ObjectMeta := { Name : string }.

Record Agent := {
  Meta : ObjectMeta;
  Spec : AgentSpec;
  Status : AgentStatus;
}.

Definition GetName (cr : Agent) : string := Name (Meta cr).

(** Modelled from the spec: the generated accessor of the resource's
    configuration reference is not among the sources; it returns the
    pointer stored in the embedded resource spec. *)
Definition GetProviderConfigReference (cr : Agent) : option xpv1.Reference :=
  xpv1.ProviderConfigReference (ResourceSpec (Spec cr)).

(** [cr.Status.SetConditions(c)] *)
Definition SetConditions (c : xpv1.Condition) (cr : Agent) : Agent :=
  {| Meta := Meta cr; Spec := Spec cr;
     Status := {| ResourceStatus := xpv1.SetConditions (ResourceStatus (Status cr)) c;
                  AtProvider := AtProvider (Status cr) |} |}.

(** [cr.Status.AtProvider.State = s] *)
Definition SetState (s : string) (cr : Agent) : Agent :=
  {| Meta := Meta cr; Spec := Spec cr;
     Status := {| ResourceStatus := ResourceStatus (Status cr);
                  AtProvider := {| State := s |} |} |}.

End v1alpha1.

(** ** Package [apis/v1alpha1]: the provider configuration *)

Module apisv1alpha1.

Record SecretKeySelector := { Namespace : string; Name : string; Key : string }.

Record CommonCredentialSelectors := {
  Fs : option string;
  Env : option string;
  SecretRef : option SecretKeySelector;
}.

(** Modelled from the spec: the declaration of [ProviderConfig] is not
    among the sources; it names where credentials are sourced from (a
    source kind and, for a secret, the referenced secret's field). *)
Record ProviderCredentials := {
  Source : string;
  Selectors : CommonCredentialSelectors;
}.

Record ProviderConfigSpec := { Credentials : ProviderCredentials }.

Record ProviderConfig := { Spec : ProviderConfigSpec }.

End apisv1alpha1.

(** ** Package [harness-go-sdk/harness/nextgen] *)

Module nextgen.

Definition Servicev1HealthStatus : Type := string.
Definition HEALTHY_Servicev1HealthStatus : Servicev1HealthStatus := "HEALTHY".

Record V1AgentComponentHealth := { Status : option Servicev1HealthStatus }.

Record V1AgentHealth := { HarnessGitopsAgent : option V1AgentComponentHealth }.

Record V1AgentMetadata := {
  Namespace : string;
  HighAvailability : bool;
  MappedProjects : option (gmap string string);
}.

(** The fields of [V1Agent] that the adapter writes or reads; it leaves
    all others at their zero value and never looks at them. *)
Record V1Agent := {
  AccountIdentifier : string;
  ProjectIdentifier : string;
  OrgIdentifier : string;
  Identifier : string;
  Name : string;
  Metadata : option V1AgentMetadata;
  Description : string;
  Health : option V1AgentHealth;
}.

(** The request context: the value stored under [ContextAPIKey]. *)
Record Context := { ContextAPIKey : option string }.

Definition WithAPIKey (ctx : Context) (key : string) : Context :=
  {| ContextAPIKey := Some key |}.

(** [*http.Response]: the status code, and what closing the body gives. *)
Record Response := { StatusCode : Z; Body_Close : error }.

(** The two calls of [AgentApi] that the adapter uses, each returning
    the agent, the response pointer and the error. *)
Record AgentApiService := {
  AgentServiceForServerGet :
    Context -> string -> string -> V1Agent * option Response * error;
  AgentServiceForServerCreate :
    Context -> V1Agent -> V1Agent * option Response * error;
}.

Record Configuration := {
  BasePath : string;
  RetryMax : Z;
  RetryWaitMin : Z;
  RetryWaitMax : Z;
  Timeout : Z;
}.

End nextgen.

Definition StatusNotFound : Z := 404.

(** ** Package [crossplane-runtime/pkg/reconciler/managed] *)

Module managed.

Definition ConnectionDetails : Type := gmap string (list byte).

Record ExternalObservation := {
  ResourceExists : bool;
  ResourceUpToDate : bool;
  ResourceLateInitialized : bool;
  ObservationDetails : option ConnectionDetails;
}.

Record ExternalCreation := { CreationDetails : option ConnectionDetails }.

Record ExternalUpdate := { UpdateDetails : option ConnectionDetails }.

(** The zero values [ExternalObservation{}], [ExternalCreation{}] and
    [ExternalUpdate{}]. *)
Definition no_observation : ExternalObservation :=
  {| ResourceExists := false; ResourceUpToDate := false;
     ResourceLateInitialized := false; ObservationDetails := None |}.
Definition no_creation : ExternalCreation := {| CreationDetails := None |}.
Definition no_update : ExternalUpdate := {| UpdateDetails := None |}.

End managed.

(** ** Packages [crossplane-runtime/pkg/resource] and [controller-runtime/pkg/client] *)

Module resource.

(** A value of the interface [resource.Managed]: a pointer to an [Agent],
    or a managed resource of another kind.  The reconciler hands over the
    object it has fetched, so the pointer to an [Agent] is never nil. *)
Inductive Managed : Type :=
| AgentPtr (cr : v1alpha1.Agent)
| OtherManaged (kind : string).

(** [resource.Tracker]: what [Track] answers for a managed resource. *)
Record Tracker := { Track : Managed -> error }.

(** [client.Client], as far as the connector uses it: [Get] of the
    [ProviderConfig] of a given name fills the object and returns an error. *)
Record Client := { Get : string -> apisv1alpha1.ProviderConfig * error }.

End resource.

Abbreviation Managed := resource.Managed.
Abbreviation AgentPtr := resource.AgentPtr.
Abbreviation OtherManaged := resource.OtherManaged.

(** ** The Go runtime: effects of a call *)

(** What a call does to the outside, in order.  [EvLog] is a line written
    by package [log], [EvPrintf] an [fmt.Printf] of the resource. *)
Inductive event : Type :=
| EvTrack (mg : Managed)
| EvKubeGet (name : string)
| EvExtractCredentials (source : string) (selectors : apisv1alpha1.CommonCredentialSelectors)
| EvNewService (creds : list byte)
| EvAgentGet (ctx : nextgen.Context) (identifier accountIdentifier : string)
| EvAgentCreate (ctx : nextgen.Context) (body : nextgen.V1Agent)
| EvBodyClose
| EvLog (line : string)
| EvPrintf (format : string) (arg : v1alpha1.Agent).

(** The calls to the remote Agent-management API. *)
Definition remote_call (e : event) : bool :=
  match e with
  | EvAgentGet _ _ _ | EvAgentCreate _ _ => true
  | _ => false
  end.

(** How a call ends: it returns, the process exits, or it panics. *)
Inductive outcome (A : Type) : Type :=
| Returned (a : A)
| Exited (code : Z)
| Panicked (reason : string).

Arguments Returned {A} a.
Arguments Exited {A} code.
Arguments Panicked {A} reason.

(** The object behind the [mg] pointer and the trace so far. *)
Record world := { object : Managed; trace : list event }.

Definition Go (A : Type) : Type := world -> outcome A * world.

#[global] Instance Go_ret : MRet Go := fun A a w => (Returned a, w).

#[global] Instance Go_bind : MBind Go := fun A B f m w =>
  match m w with
  | (Returned a, w') => f a w'
  | (Exited code, w') => (Exited code, w')
  | (Panicked reason, w') => (Panicked reason, w')
  end.

Definition emit (e : event) : Go unit :=
  fun w => (Returned tt, {| object := object w; trace := trace w ++ [e] |}).

(** Reading the interface value [mg]. *)
Definition load : Go Managed := fun w => (Returned (object w), w).

(** A write through the [cr] pointer. *)
Definition store (f : v1alpha1.Agent -> v1alpha1.Agent) : Go unit :=
  fun w =>
    (Returned tt,
     {| object := match object w with
                  | AgentPtr cr => AgentPtr (f cr)
                  | other => other
                  end;
        trace := trace w |}).

Definition os_Exit {A} (code : Z) : Go A := fun w => (Exited code, w).

Definition panic {A} (reason : string) : Go A := fun w => (Panicked reason, w).

Definition nil_dereference : string :=
  "runtime error: invalid memory address or nil pointer dereference".

(** [p != nil] *)
Definition non_nil {A} (p : option A) : bool :=
  match p with
  | Some _ => true
  | None => false
  end.

(** [*p] *)
Definition deref {A} (p : option A) : Go A :=
  match p with
  | Some a => mret a
  | None => panic nil_dereference
  end.

(** [log.Fatal] and [log.Fatalln]: write the line, then [os.Exit(1)]. *)
Definition log_Fatal {A} (line : string) : Go A :=
  emit (EvLog line);; os_Exit 1.

(** [log.Printf("%s\n", s)] *)
Definition log_Printf_s (s : string) : Go unit := emit (EvLog s).

(** [defer d] followed by [body]: [d] runs when [body] returns or panics,
    not when the process has exited; an exit or a panic of [d] replaces
    the outcome of [body]. *)
Definition with_defer {A} (d : Go unit) (body : Go A) : Go A :=
  fun w =>
    match body w with
    | (Exited code, w') => (Exited code, w')
    | (o, w') =>
        match d w' with
        | (Returned _, w'') => (o, w'')
        | (Exited code, w'') => (Exited code, w'')
        | (Panicked reason, w'') => (Panicked reason, w'')
        end
    end.

(** What the process and the libraries give the adapter: the environment
    ([os.Getenv]), the clock ([metav1.Now]), the credential extractor of
    crossplane-runtime and the client constructor of the SDK. *)
Record Host := {
  Getenv : string -> string;
  Now : Z;
  CommonCredentialExtractor :
    string -> resource.Client -> apisv1alpha1.CommonCredentialSelectors -> list byte * error;
  NewAPIClient : nextgen.Configuration -> nextgen.AgentApiService;
}.

(** A call of a Go function on the managed resource [mg], from an empty trace. *)
Definition call {A} (f : Go A) (mg : Managed) : outcome A * world :=
  f {| object := mg; trace := [] |}.

(** ** Package [internal/controller/agent] *)

Module agent.

Import resource.

Definition errNotAgent : string := "managed resource is not a Agent custom resource".
Definition errTrackPCUsage : string := "cannot track ProviderConfig usage".
Definition errGetPC : string := "cannot get ProviderConfig".
Definition errGetCreds : string := "cannot get credentials".
Definition errNewClient : string := "cannot create new Service".

(** [HarnessService] embeds the API client; a nil pointer anywhere on the
    path [c.service.AgentApi] is a [None] service. *)
Record HarnessService := { AgentApi : nextgen.AgentApiService }.

Definition newHarnessService (h : Host) (creds : list byte) : option HarnessService * error :=
  let config :=
    {| nextgen.BasePath := "https://app.harness.io";
       nextgen.RetryMax := 10;
       nextgen.RetryWaitMin := 5;
       nextgen.RetryWaitMax := 10;
       nextgen.Timeout := 10 |} in
  let client := NewAPIClient h config in
  (Some {| AgentApi := client |}, None).

Record connector := {
  kube : Client;
  usage : Tracker;
  newServiceFn : list byte -> option HarnessService * error;
}.

Record external := { service : option HarnessService }.

Definition Connect (h : Host) (c : connector) : Go (option external * error) :=
  mg ← load;
  match mg with
  | OtherManaged _ => mret (None, errors.New errNotAgent)
  | AgentPtr cr =>
    emit (EvTrack mg);;
    match Track (usage c) mg with
    | Some err => mret (None, errors.Wrap (Some err) errTrackPCUsage)
    | None =>
      ref ← deref (v1alpha1.GetProviderConfigReference cr);
      emit (EvKubeGet (xpv1.Name ref));;
      let '(pc, err) := Get (kube c) (xpv1.Name ref) in
      match err with
      | Some _ => mret (None, errors.Wrap err errGetPC)
      | None =>
        let cd := apisv1alpha1.Credentials (apisv1alpha1.Spec pc) in
        emit (EvExtractCredentials (apisv1alpha1.Source cd) (apisv1alpha1.Selectors cd));;
        let '(data, err) :=
          CommonCredentialExtractor h (apisv1alpha1.Source cd) (kube c)
                                    (apisv1alpha1.Selectors cd) in
        match err with
        | Some _ => mret (None, errors.Wrap err errGetCreds)
        | None =>
          emit (EvNewService data);;
          let '(svc, err) := newServiceFn c data in
          match err with
          | Some _ => mret (None, errors.Wrap err errNewClient)
          | None => mret (Some {| service := svc |}, None)
          end
        end
      end
    end
  end.

(** [context.WithValue(ctx, nextgen.ContextAPIKey,
    nextgen.APIKey{Key: os.Getenv("HARNESS_API_KEY")})] *)
Definition request_context (h : Host) (ctx : nextgen.Context) : nextgen.Context :=
  nextgen.WithAPIKey ctx (Getenv h "HARNESS_API_KEY").

(** The deferred closure of [Observe] and [Create]: close the body of a
    response that is there, and [log.Fatal] when closing fails. *)
Definition close_response (response : option nextgen.Response) : Go unit :=
  match response with
  | None => mret tt
  | Some r =>
    emit EvBodyClose;;
    match nextgen.Body_Close r with
    | Some err => log_Fatal (errors.Error err)
    | None => mret tt
    end
  end.

(** [*agent.Health.HarnessGitopsAgent.Status] *)
Definition health_status (agent : nextgen.V1Agent) : Go nextgen.Servicev1HealthStatus :=
  health ← deref (nextgen.Health agent);
  component ← deref (nextgen.HarnessGitopsAgent health);
  deref (nextgen.Status component).

Definition not_found (response : option nextgen.Response) : bool :=
  match response with
  | Some r => Z.eqb (nextgen.StatusCode r) StatusNotFound
  | None => false
  end.

Definition Observe (h : Host) (c : external) (ctx : nextgen.Context)
  : Go (managed.ExternalObservation * error) :=
  mg ← load;
  match mg with
  | OtherManaged _ => mret (managed.no_observation, errors.New errNotAgent)
  | AgentPtr cr =>
    let params := v1alpha1.ForProvider (v1alpha1.Spec cr) in
    let identifier := default "" (v1alpha1.Identifier params) in
    match v1alpha1.AccountIdentifier params with
    | None => log_Fatal "AccountIndentifier is required"
    | Some _ => mret tt
    end;;
    let ctx := request_context h ctx in
    svc ← deref (service c);
    accountIdentifier ← deref (v1alpha1.AccountIdentifier params);
    emit (EvAgentGet ctx identifier accountIdentifier);;
    let '(agent, response, err) :=
      nextgen.AgentServiceForServerGet (AgentApi svc) ctx identifier accountIdentifier in
    with_defer (close_response response)
      (if non_nil err || not_found response
       then mret ({| managed.ResourceExists := false;
                     managed.ResourceUpToDate := false;
                     managed.ResourceLateInitialized := false;
                     managed.ObservationDetails := None |}, None)
       else
         status ← health_status agent;
         (if String.eqb status nextgen.HEALTHY_Servicev1HealthStatus
          then store (v1alpha1.SetConditions (xpv1.Available (Now h)))
          else mret tt);;
         mret ({| managed.ResourceExists := true;
                  managed.ResourceUpToDate := true;
                  managed.ResourceLateInitialized := false;
                  managed.ObservationDetails := None |}, None))
  end.

(** An optional spec field of [Create]: the empty string when the pointer
    is nil, and otherwise the value, which is also logged. *)
Definition optional_field (field : option string) : Go string :=
  match field with
  | Some s => log_Printf_s s;; mret s
  | None => mret ""
  end.

Definition Create (h : Host) (c : external) (ctx : nextgen.Context)
  : Go (managed.ExternalCreation * error) :=
  mg ← load;
  match mg with
  | OtherManaged _ => mret (managed.no_creation, errors.New errNotAgent)
  | AgentPtr cr =>
    let params := v1alpha1.ForProvider (v1alpha1.Spec cr) in
    accountIdentifier ← optional_field (v1alpha1.AccountIdentifier params);
    projectIndentifier ← optional_field (v1alpha1.ProjectIdentifier params);
    orgIdentifier ← optional_field (v1alpha1.OrgIdentifier params);
    description ← optional_field (v1alpha1.Description params);
    let name := v1alpha1.GetName cr in
    let ctx := request_context h ctx in
    svc ← deref (service c);
    let body :=
      {| nextgen.AccountIdentifier := accountIdentifier;
         nextgen.ProjectIdentifier := projectIndentifier;
         nextgen.OrgIdentifier := orgIdentifier;
         nextgen.Identifier := "";
         nextgen.Name := name;
         nextgen.Metadata :=
           Some {| nextgen.Namespace := "harness";
                   nextgen.HighAvailability := true;
                   nextgen.MappedProjects := Some ∅ |};
         nextgen.Description := description;
         nextgen.Health := None |} in
    emit (EvAgentCreate ctx body);;
    let '(agent, response, err) :=
      nextgen.AgentServiceForServerCreate (AgentApi svc) ctx body in
    with_defer (close_response response)
      match err with
      | Some _ => mret (managed.no_creation, err)
      | None =>
        status ← health_status agent;
        store (v1alpha1.SetState status);;
        mret ({| managed.CreationDetails := Some ∅ |}, None)
      end
  end.

Definition Update (c : external) (ctx : nextgen.Context)
  : Go (managed.ExternalUpdate * error) :=
  mret (managed.no_update, None).

Definition Delete (c : external) (ctx : nextgen.Context) : Go error :=
  mg ← load;
  match mg with
  | OtherManaged _ => mret (errors.New errNotAgent)
  | AgentPtr cr =>
    emit (EvPrintf "Deleting: %+v" cr);;
    mret None
  end.

End agent.

(** ** What the statements below talk about *)

Import agent.

(** The desired spec of a managed resource, when it is an Agent. *)
Definition desired_spec (mg : Managed) : option v1alpha1.AgentSpec :=
  match mg with
  | AgentPtr cr => Some (v1alpha1.Spec cr)
  | OtherManaged _ => None
  end.

(** The observed status of a managed resource, when it is an Agent. *)
Definition observed_status (mg : Managed) : option v1alpha1.AgentStatus :=
  match mg with
  | AgentPtr cr => Some (v1alpha1.Status cr)
  | OtherManaged _ => None
  end.

(** The remote lookup that [Observe] makes for [cr] through [svc]. *)
Definition remote_lookup (h : Host) (svc : HarnessService) (ctx : nextgen.Context)
    (cr : v1alpha1.Agent) (accountIdentifier : string)
  : nextgen.V1Agent * option nextgen.Response * error :=
  nextgen.AgentServiceForServerGet (AgentApi svc) (request_context h ctx)
    (default "" (v1alpha1.Identifier (v1alpha1.ForProvider (v1alpha1.Spec cr))))
    accountIdentifier.

(** The creation payload for [cr]: each optional string field of the
    spec, or the empty string when it is unset; the identifier is left
    empty, the name is the name of the object, the metadata is fixed. *)
Definition expected_body (cr : v1alpha1.Agent) : nextgen.V1Agent :=
  let params := v1alpha1.ForProvider (v1alpha1.Spec cr) in
  {| nextgen.AccountIdentifier := default "" (v1alpha1.AccountIdentifier params);
     nextgen.ProjectIdentifier := default "" (v1alpha1.ProjectIdentifier params);
     nextgen.OrgIdentifier := default "" (v1alpha1.OrgIdentifier params);
     nextgen.Identifier := "";
     nextgen.Name := v1alpha1.GetName cr;
     nextgen.Metadata :=
       Some {| nextgen.Namespace := "harness";
               nextgen.HighAvailability := true;
               nextgen.MappedProjects := Some ∅ |};
     nextgen.Description := default "" (v1alpha1.Description params);
     nextgen.Health := None |}.

(** The remote create call that [Create] makes for [cr] through [svc]. *)
Definition remote_create (h : Host) (svc : HarnessService) (ctx : nextgen.Context)
    (cr : v1alpha1.Agent)
  : nextgen.V1Agent * option nextgen.Response * error :=
  nextgen.AgentServiceForServerCreate (AgentApi svc) (request_context h ctx)
    (expected_body cr).

(** The health status string of a remote agent, when every pointer on the
    way to it is set. *)
Definition remote_health (agent : nextgen.V1Agent) : option string :=
  health ← nextgen.Health agent;
  component ← nextgen.HarnessGitopsAgent health;
  nextgen.Status component.

(** What closing the body of the response gives; nothing is closed when
    there is no response. *)
Definition close_error (response : option nextgen.Response) : error :=
  match response with
  | Some r => nextgen.Body_Close r
  | None => None
  end.

(** The events of the deferred closure for a response. *)
Definition closing_trace (response : option nextgen.Response) : list event :=
  match response with
  | None => []
  | Some r =>
    EvBodyClose ::
    match nextgen.Body_Close r with
    | Some err => [EvLog (errors.Error err)]
    | None => []
    end
  end.

(** The lines that [Create] logs for the optional fields that are set. *)
Definition field_log (cr : v1alpha1.Agent) : list event :=
  let params := v1alpha1.ForProvider (v1alpha1.Spec cr) in
  let line field :=
    match field with
    | Some s => [EvLog s]
    | None => []
    end in
  line (v1alpha1.AccountIdentifier params) ++ line (v1alpha1.ProjectIdentifier params)
  ++ line (v1alpha1.OrgIdentifier params) ++ line (v1alpha1.Description params).

(** The state string in the observed status of an Agent. *)
Definition observed_state (mg : Managed) : option string :=
  match mg with
  | AgentPtr cr => Some (v1alpha1.State (v1alpha1.AtProvider (v1alpha1.Status cr)))
  | OtherManaged _ => None
  end.

(** [after] is [before] up to the observed status. *)
Definition only_status_written (before after : Managed) : Prop :=
  match before, after with
  | AgentPtr cr, AgentPtr cr' =>
    v1alpha1.Meta cr' = v1alpha1.Meta cr /\ v1alpha1.Spec cr' = v1alpha1.Spec cr
  | OtherManaged kind, OtherManaged kind' => kind' = kind
  | _, _ => False
  end.

(** A computation that writes nothing but the observed status. *)
Definition keeps_spec {A} (m : Go A) : Prop :=
  forall w, only_status_written (object w) (object (snd (m w))).

(** The Available condition is set on the status of [mg]. *)
Definition is_available (mg : Managed) : Prop :=
  exists cr, mg = AgentPtr cr /\
    xpv1.Equal
      (xpv1.GetCondition (v1alpha1.ResourceStatus (v1alpha1.Status cr)) xpv1.TypeReady)
      (xpv1.Available 0) = true.

(** An error that carries one of the contextual messages of [Connect]. *)
Definition contextual (e : errors.value) : Prop :=
  exists cause msg,
    e = errors.withMessage cause msg
    /\ In msg [errTrackPCUsage; errGetPC; errGetCreds; errNewClient].

(** The remote calls in a trace. *)
Definition remote_calls (t : list event) : list event := filter remote_call t.

(** The constructions of a service in a trace. *)
Definition constructs_client (e : event) : bool :=
  match e with
  | EvNewService _ => true
  | _ => false
  end.

(** ** The example resource of [examples/harness/gitops-agent.yaml] and test doubles *)

Module example.

Definition params : v1alpha1.AgentParameters :=
  {| v1alpha1.AccountIdentifier := Some "nYY7inrwTrqqa3r1a_-krg";
     v1alpha1.ProjectIdentifier := Some "ahpoc";
     v1alpha1.OrgIdentifier := Some "Innovation";
     v1alpha1.Description := Some "this is a test";
     v1alpha1.Tags := ∅;
     v1alpha1.Identifier := None |}.

Definition unset : v1alpha1.AgentParameters :=
  {| v1alpha1.AccountIdentifier := None;
     v1alpha1.ProjectIdentifier := None;
     v1alpha1.OrgIdentifier := None;
     v1alpha1.Description := None;
     v1alpha1.Tags := ∅;
     v1alpha1.Identifier := None |}.

Definition resource_of (p : v1alpha1.AgentParameters) : v1alpha1.Agent :=
  {| v1alpha1.Meta := {| v1alpha1.Name := "example" |};
     v1alpha1.Spec :=
       {| v1alpha1.ResourceSpec :=
            {| xpv1.ProviderConfigReference := Some {| xpv1.Name := "example" |} |};
          v1alpha1.ForProvider := p |};
     v1alpha1.Status :=
       {| v1alpha1.ResourceStatus := {| xpv1.Conditions := [] |};
          v1alpha1.AtProvider := {| v1alpha1.State := "" |} |} |}.

Definition cr : v1alpha1.Agent := resource_of params.
Definition cr_unset : v1alpha1.Agent := resource_of unset.

Definition provider_config : apisv1alpha1.ProviderConfig :=
  {| apisv1alpha1.Spec := {| apisv1alpha1.Credentials :=
       {| apisv1alpha1.Source := "Secret";
          apisv1alpha1.Selectors :=
            {| apisv1alpha1.Fs := None; apisv1alpha1.Env := None;
               apisv1alpha1.SecretRef :=
                 Some {| apisv1alpha1.Namespace := "crossplane-system";
                         apisv1alpha1.Name := "example-provider-secret";
                         apisv1alpha1.Key := "credentials" |} |} |} |} |}.

(** A remote agent with the given health. *)
Definition remote_agent (health : option nextgen.V1AgentHealth) : nextgen.V1Agent :=
  {| nextgen.AccountIdentifier := "nYY7inrwTrqqa3r1a_-krg";
     nextgen.ProjectIdentifier := "ahpoc";
     nextgen.OrgIdentifier := "Innovation";
     nextgen.Identifier := "example";
     nextgen.Name := "example";
     nextgen.Metadata := None;
     nextgen.Description := "this is a test";
     nextgen.Health := health |}.

Definition health_of (status : string) : option nextgen.V1AgentHealth :=
  Some {| nextgen.HarnessGitopsAgent := Some {| nextgen.Status := Some status |} |}.

Definition response_of (code : Z) (closing : error) : option nextgen.Response :=
  Some {| nextgen.StatusCode := code; nextgen.Body_Close := closing |}.

(** A remote API that answers every lookup with [got] and every creation
    with [created]. *)
Definition api (got created : nextgen.V1Agent * option nextgen.Response * error)
  : nextgen.AgentApiService :=
  {| nextgen.AgentServiceForServerGet := fun _ _ _ => got;
     nextgen.AgentServiceForServerCreate := fun _ _ => created |}.

Definition client (got created : nextgen.V1Agent * option nextgen.Response * error)
  : external :=
  {| service := Some {| AgentApi := api got created |} |}.

Definition healthy : nextgen.V1Agent * option nextgen.Response * error :=
  (remote_agent (health_of "HEALTHY"), response_of 200 None, None).

Definition missing : nextgen.V1Agent * option nextgen.Response * error :=
  (remote_agent None, response_of 404 None, Some (errors.foreign "404 Not Found")).

Definition missing_unclosable : nextgen.V1Agent * option nextgen.Response * error :=
  (remote_agent None, response_of 404 (Some (errors.foreign "close failed")),
   Some (errors.foreign "404 Not Found")).

Definition refused : nextgen.V1Agent * option nextgen.Response * error :=
  (remote_agent None, None, Some (errors.foreign "connection refused")).

Definition rejected_unclosable : nextgen.V1Agent * option nextgen.Response * error :=
  (remote_agent None, response_of 400 (Some (errors.foreign "close failed")),
   Some (errors.foreign "400 Bad Request")).

(** A secret store that has the credentials, and one that has not. *)
Definition extractor_ok (source : string) (kube : resource.Client)
    (selectors : apisv1alpha1.CommonCredentialSelectors) : list byte * error :=
  ([x73; x65; x63; x72; x65; x74]%byte, None).

Definition extractor_failing (source : string) (kube : resource.Client)
    (selectors : apisv1alpha1.CommonCredentialSelectors) : list byte * error :=
  ([], Some (errors.foreign "cannot get credentials secret")).

Definition host
    (extractor : string -> resource.Client -> apisv1alpha1.CommonCredentialSelectors
                 -> list byte * error) : Host :=
  {| Getenv := fun _ => "pat.key";
     Now := 1667433600;
     CommonCredentialExtractor := extractor;
     NewAPIClient := fun _ => api healthy healthy |}.

Definition h : Host := host extractor_ok.

Definition ctx : nextgen.Context := {| nextgen.ContextAPIKey := None |}.

Definition conn (h : Host) : connector :=
  {| kube := {| resource.Get := fun _ => (provider_config, None) |};
     usage := {| resource.Track := fun _ => None |};
     newServiceFn := newHarnessService h |}.

End example.

(** ** Further vocabulary: the steps of the connector, the parts of the status *)

(** The collaborators of [Connect], in the order of the source. *)
Inductive connect_step : Type :=
| TrackUsage
| GetProviderConfig
| ExtractCredentials
| NewService.

(** The step of [Connect] that an event belongs to, if any. *)
Definition step_of (e : event) : option connect_step :=
  match e with
  | EvTrack _ => Some TrackUsage
  | EvKubeGet _ => Some GetProviderConfig
  | EvExtractCredentials _ _ => Some ExtractCredentials
  | EvNewService _ => Some NewService
  | _ => None
  end.

(** The conditions in the observed status of an Agent. *)
Definition observed_conditions (mg : Managed) : option (list xpv1.Condition) :=
  match mg with
  | AgentPtr cr => Some (xpv1.Conditions (v1alpha1.ResourceStatus (v1alpha1.Status cr)))
  | OtherManaged _ => None
  end.

(** The lines written by package [log] in a trace. *)
Definition is_log (e : event) : bool :=
  match e with
  | EvLog _ => true
  | _ => false
  end.

(** More test doubles. *)
Module scenario.

(** The example resource with an identifier of its own. *)
Definition identified : v1alpha1.Agent :=
  example.resource_of
    {| v1alpha1.AccountIdentifier := Some "nYY7inrwTrqqa3r1a_-krg";
       v1alpha1.ProjectIdentifier := Some "ahpoc";
       v1alpha1.OrgIdentifier := Some "Innovation";
       v1alpha1.Description := None;
       v1alpha1.Tags := {["team" := "platform"]};
       v1alpha1.Identifier := Some "agent1" |}.

(** The example resource without a reference to a provider configuration. *)
Definition unreferenced : v1alpha1.Agent :=
  {| v1alpha1.Meta := {| v1alpha1.Name := "example" |};
     v1alpha1.Spec :=
       {| v1alpha1.ResourceSpec := {| xpv1.ProviderConfigReference := None |};
          v1alpha1.ForProvider := example.params |};
     v1alpha1.Status :=
       {| v1alpha1.ResourceStatus := {| xpv1.Conditions := [] |};
          v1alpha1.AtProvider := {| v1alpha1.State := "" |} |} |}.

Definition unhealthy : nextgen.V1Agent * option nextgen.Response * error :=
  (example.remote_agent (example.health_of "UNHEALTHY"), example.response_of 200 None, None).

Definition without_health : nextgen.V1Agent * option nextgen.Response * error :=
  (example.remote_agent None, example.response_of 200 None, None).

(** A connector whose usage tracker fails. *)
Definition conn_untracked (h : Host) : connector :=
  {| kube := {| resource.Get := fun _ => (example.provider_config, None) |};
     usage := {| resource.Track := fun _ => Some (errors.foreign "no usage") |};
     newServiceFn := newHarnessService h |}.

(** A connector whose API server has no such provider configuration. *)
Definition conn_unconfigured (h : Host) : connector :=
  {| kube := {| resource.Get :=
                  fun _ => (example.provider_config, Some (errors.foreign "not found")) |};
     usage := {| resource.Track := fun _ => None |};
     newServiceFn := newHarnessService h |}.

(** A connector whose service constructor fails. *)
Definition conn_unbuildable : connector :=
  {| kube := {| resource.Get := fun _ => (example.provider_config, None) |};
     usage := {| resource.Track := fun _ => None |};
     newServiceFn := fun _ => (None, Some (errors.foreign "bad endpoint")) |}.

(** A create call that succeeds with a healthy agent, but whose response
    has a body that cannot be closed. *)
Definition created_unclosable : nextgen.V1Agent * option nextgen.Response * error :=
  (example.remote_agent (example.health_of "HEALTHY"),
   example.response_of 201 (Some (errors.foreign "close failed")), None).

(** The example host an hour later. *)
Definition later : Host :=
  {| Getenv := Getenv example.h;
     Now := 1667437200;
     CommonCredentialExtractor := CommonCredentialExtractor example.h;
     NewAPIClient := NewAPIClient example.h |}.

End scenario.

(** * Properties *)

(** Unfolding the runtime: every step of a call on a concrete world. *)
Ltac go_unfold :=
  unfold call, Observe, Create, Update, Delete, Connect, close_response,
    health_status, optional_field, log_Printf_s, log_Fatal, with_defer,
    deref, panic, os_Exit, store, load, emit, mbind, mret, Go_bind, Go_ret
    in *.

Ltac go_run := go_unfold; cbn in *.

(** ** The model at work *)

Example Error_of_wrapped :
  errors.Error (errors.withMessage (errors.foreign "secret not found") errGetCreds)
  = "cannot get credentials: secret not found".
Proof. reflexivity. Qed.

Lemma newHarnessService_total (h : Host) (creds : list byte) :
  exists svc, newHarnessService h creds = (Some svc, None).
Proof. eexists. reflexivity. Qed.

Example Connect_example :
  call (Connect example.h (example.conn example.h)) (AgentPtr example.cr)
  = (Returned (Some (example.client example.healthy example.healthy), None),
     {| object := AgentPtr example.cr;
        trace := [EvTrack (AgentPtr example.cr); EvKubeGet "example";
                  EvExtractCredentials "Secret"
                    (apisv1alpha1.Selectors
                       (apisv1alpha1.Credentials
                          (apisv1alpha1.Spec example.provider_config)));
                  EvNewService [x73; x65; x63; x72; x65; x74]%byte] |}).
Proof. reflexivity. Qed.

Example Observe_example :
  call (Observe example.h (example.client example.healthy example.healthy) example.ctx)
       (AgentPtr example.cr)
  = (Returned ({| managed.ResourceExists := true;
                  managed.ResourceUpToDate := true;
                  managed.ResourceLateInitialized := false;
                  managed.ObservationDetails := None |}, None),
     {| object :=
          AgentPtr (v1alpha1.SetConditions (xpv1.Available 1667433600) example.cr);
        trace := [EvAgentGet {| nextgen.ContextAPIKey := Some "pat.key" |}
                    "" "nYY7inrwTrqqa3r1a_-krg";
                  EvBodyClose] |}).
Proof. reflexivity. Qed.

Example Create_example :
  call (Create example.h (example.client example.missing example.healthy) example.ctx)
       (AgentPtr example.cr)
  = (Returned ({| managed.CreationDetails := Some ∅ |}, None),
     {| object := AgentPtr (v1alpha1.SetState "HEALTHY" example.cr);
        trace := [EvLog "nYY7inrwTrqqa3r1a_-krg"; EvLog "ahpoc"; EvLog "Innovation";
                  EvLog "this is a test";
                  EvAgentCreate {| nextgen.ContextAPIKey := Some "pat.key" |}
                    (expected_body example.cr);
                  EvBodyClose] |}).
Proof. reflexivity. Qed.

(** A remote agent without health makes [Observe] panic on the nil
    pointer; the deferred closure still closes the body. *)
Example Observe_without_health_panics :
  call (Observe example.h
          (example.client (example.remote_agent None, example.response_of 200 None, None)
                          example.healthy)
          example.ctx)
       (AgentPtr example.cr)
  = (Panicked nil_dereference,
     {| object := AgentPtr example.cr;
        trace := [EvAgentGet {| nextgen.ContextAPIKey := Some "pat.key" |}
                    "" "nYY7inrwTrqqa3r1a_-krg";
                  EvBodyClose] |}).
Proof. reflexivity. Qed.

(** ** Update *)

(** C8: for any input resource, [Update] returns the empty update result
    and a nil error, makes no call to the outside and leaves the resource
    as it is. *)
Theorem Update_is_noop (c : external) (ctx : nextgen.Context) (mg : Managed) :
  call (Update c ctx) mg
  = (Returned (managed.no_update, None), {| object := mg; trace := [] |}).
Proof. reflexivity. Qed.

(** ** Delete *)

Lemma Delete_agent (c : external) (ctx : nextgen.Context) (cr : v1alpha1.Agent) :
  call (Delete c ctx) (AgentPtr cr)
  = (Returned None,
     {| object := AgentPtr cr; trace := [EvPrintf "Deleting: %+v" cr] |}).
Proof. reflexivity. Qed.

Lemma Delete_other (c : external) (ctx : nextgen.Context) (kind : string) :
  call (Delete c ctx) (OtherManaged kind)
  = (Returned (errors.New errNotAgent),
     {| object := OtherManaged kind; trace := [] |}).
Proof. reflexivity. Qed.

(** C4, as the claim states it, fails: for a managed resource that is not
    an Agent, [Delete] returns the type-mismatch error, not nil. *)
Lemma Delete_other_kind_returns_error :
  fst (call (Delete (example.client example.healthy example.healthy) example.ctx)
            (OtherManaged "NopResource"))
  = Returned (Some (errors.fundamental "managed resource is not a Agent custom resource"))
  /\ errors.New errNotAgent <> None.
Proof. split; [reflexivity | discriminate]. Qed.

(** C4, amended: [Delete] never makes a remote call; for every Agent it
    returns a nil error, and for a managed resource of another kind it
    returns the type-mismatch error. *)
Theorem Delete_no_remote_call (c : external) (ctx : nextgen.Context) (mg : Managed) :
  remote_calls (trace (snd (call (Delete c ctx) mg))) = []
  /\ fst (call (Delete c ctx) mg)
     = Returned (match mg with
                 | AgentPtr _ => None
                 | OtherManaged _ => errors.New errNotAgent
                 end).
Proof. destruct mg as [cr | kind]; split; reflexivity. Qed.

(** ** Conditions *)

Lemma Equal_refl (c : xpv1.Condition) : xpv1.Equal c c = true.
Proof. unfold xpv1.Equal. now rewrite !String.eqb_refl. Qed.

(** After [SetConditions], the condition of the new condition's type is
    the new condition, up to the transition time. *)
Lemma GetCondition_SetConditions (s : xpv1.ConditionedStatus) (new : xpv1.Condition) :
  xpv1.Equal (xpv1.GetCondition (xpv1.SetConditions s new) (xpv1.Type_ new)) new = true.
Proof.
  destruct s as [cs]. unfold xpv1.GetCondition, xpv1.SetConditions. cbn.
  induction cs as [| a cs IH]; cbn.
  - rewrite String.eqb_refl. apply Equal_refl.
  - destruct (String.eqb (xpv1.Type_ a) (xpv1.Type_ new)) eqn:Ha; cbn.
    + destruct (xpv1.Equal a new) eqn:Hequal.
      * now rewrite Ha.
      * rewrite String.eqb_refl. apply Equal_refl.
    + destruct (existsb _ cs); cbn; now rewrite Ha.
Qed.

(** ** Observe *)

Section ObserveLookup.

Variables (h : Host) (c : external) (ctx : nextgen.Context) (cr : v1alpha1.Agent).
Variables (svc : HarnessService) (account : string).
Variables (agent : nextgen.V1Agent) (response : option nextgen.Response) (err : error).

Hypothesis service_set : service c = Some svc.
Hypothesis account_set :
  v1alpha1.AccountIdentifier (v1alpha1.ForProvider (v1alpha1.Spec cr)) = Some account.
Hypothesis lookup : remote_lookup h svc ctx cr account = (agent, response, err).

Lemma Observe_lookup_failed_run :
  non_nil err || not_found response = true ->
  fst (call (Observe h c ctx) (AgentPtr cr))
  = match close_error response with
    | None => Returned ({| managed.ResourceExists := false;
                           managed.ResourceUpToDate := false;
                           managed.ResourceLateInitialized := false;
                           managed.ObservationDetails := None |}, None)
    | Some _ => Exited 1
    end.
Proof.
  intros Hfailed. unfold remote_lookup in lookup. go_run.
  rewrite account_set, service_set. cbn. rewrite lookup, Hfailed. cbn.
  destruct response as [r |]; cbn; [| reflexivity].
  destruct (nextgen.Body_Close r); reflexivity.
Qed.

Lemma Observe_found_run (status : string) :
  err = None -> not_found response = false -> remote_health agent = Some status ->
  fst (call (Observe h c ctx) (AgentPtr cr))
  = match close_error response with
    | None => Returned ({| managed.ResourceExists := true;
                           managed.ResourceUpToDate := true;
                           managed.ResourceLateInitialized := false;
                           managed.ObservationDetails := None |}, None)
    | Some _ => Exited 1
    end
  /\ object (snd (call (Observe h c ctx) (AgentPtr cr)))
     = AgentPtr (if String.eqb status nextgen.HEALTHY_Servicev1HealthStatus
                 then v1alpha1.SetConditions (xpv1.Available (Now h)) cr
                 else cr).
Proof.
  intros -> Hfound Hhealth. unfold remote_lookup in lookup.
  unfold remote_health in Hhealth.
  destruct (nextgen.Health agent) as [health |] eqn:Hh; [| discriminate].
  cbn in Hhealth.
  destruct (nextgen.HarnessGitopsAgent health) as [component |] eqn:Hc; [| discriminate].
  cbn in Hhealth.
  go_run. rewrite account_set, service_set. cbn. rewrite lookup, Hfound. cbn.
  rewrite Hh. cbn. rewrite Hc. cbn. rewrite Hhealth. cbn.
  destruct (String.eqb status nextgen.HEALTHY_Servicev1HealthStatus); cbn;
    (destruct response as [r |]; cbn; [destruct (nextgen.Body_Close r) |]);
    split; reflexivity.
Qed.

End ObserveLookup.

Lemma Observe_returns_up_to_date (h : Host) (c : external) (ctx : nextgen.Context)
    (mg : Managed) (obs : managed.ExternalObservation) (err : error) (w : world) :
  call (Observe h c ctx) mg = (Returned (obs, err), w) ->
  managed.ResourceExists obs = true ->
  managed.ResourceUpToDate obs = true.
Proof.
  intros Hcall Hexists. go_run.
  repeat (case_match; cbn in *; simplify_eq); try done.
Qed.

(** ** Create *)

(** [Create] up to the remote call: the set fields are logged, the payload
    is the expected one, and the rest runs under the deferred closure. *)
Lemma Create_run (h : Host) (c : external) (ctx : nextgen.Context) (cr : v1alpha1.Agent)
    (svc : HarnessService) (agent : nextgen.V1Agent)
    (response : option nextgen.Response) (err : error) :
  service c = Some svc ->
  remote_create h svc ctx cr = (agent, response, err) ->
  call (Create h c ctx) (AgentPtr cr)
  = with_defer (close_response response)
      match err with
      | Some _ => mret (managed.no_creation, err)
      | None =>
        status ← health_status agent;
        store (v1alpha1.SetState status);;
        mret ({| managed.CreationDetails := Some ∅ |}, None)
      end
      {| object := AgentPtr cr;
         trace := field_log cr
                  ++ [EvAgentCreate (request_context h ctx) (expected_body cr)] |}.
Proof.
  intros Hsvc Hcreate. unfold remote_create, expected_body in Hcreate.
  unfold field_log, expected_body.
  destruct cr as [meta [rs [account project org description tags identifier]] status].
  cbn in *.
  unfold call, Create, optional_field, log_Printf_s, deref, emit, load, mbind, mret,
    Go_bind, Go_ret.
  cbn. rewrite Hsvc.
  destruct account, project, org, description; cbn in *; now rewrite Hcreate.
Qed.

Lemma Create_trace (h : Host) (c : external) (ctx : nextgen.Context) (cr : v1alpha1.Agent)
    (svc : HarnessService) (agent : nextgen.V1Agent)
    (response : option nextgen.Response) (err : error) :
  service c = Some svc ->
  remote_create h svc ctx cr = (agent, response, err) ->
  trace (snd (call (Create h c ctx) (AgentPtr cr)))
  = field_log cr ++ [EvAgentCreate (request_context h ctx) (expected_body cr)]
    ++ closing_trace response.
Proof.
  intros Hsvc Hcreate. rewrite (Create_run _ _ _ _ _ _ _ _ Hsvc Hcreate).
  rewrite (app_assoc (field_log cr)).
  generalize (field_log cr ++ [EvAgentCreate (request_context h ctx) (expected_body cr)]).
  intros prefix. go_unfold. unfold closing_trace.
  destruct err as [e |]; cbn.
  - destruct response as [r |]; cbn; [destruct (nextgen.Body_Close r) |];
      cbn; now rewrite ?app_nil_r, <- ?app_assoc.
  - destruct (nextgen.Health agent) as [health |]; cbn;
      [destruct (nextgen.HarnessGitopsAgent health) as [component |]; cbn;
       [destruct (nextgen.Status component); cbn |] |];
      (destruct response as [r |]; cbn; [destruct (nextgen.Body_Close r) |];
       cbn; now rewrite ?app_nil_r, <- ?app_assoc).
Qed.

Lemma field_log_not_remote (cr : v1alpha1.Agent) : remote_calls (field_log cr) = [].
Proof.
  unfold field_log.
  destruct (v1alpha1.AccountIdentifier _), (v1alpha1.ProjectIdentifier _),
    (v1alpha1.OrgIdentifier _), (v1alpha1.Description _); reflexivity.
Qed.

Lemma closing_trace_not_remote (response : option nextgen.Response) :
  remote_calls (closing_trace response) = [].
Proof.
  destruct response as [r |]; cbn; [destruct (nextgen.Body_Close r) |]; reflexivity.
Qed.

Lemma Create_failed_run (h : Host) (c : external) (ctx : nextgen.Context) (cr : v1alpha1.Agent)
    (svc : HarnessService) (agent : nextgen.V1Agent)
    (response : option nextgen.Response) (e : errors.value) :
  service c = Some svc ->
  remote_create h svc ctx cr = (agent, response, Some e) ->
  fst (call (Create h c ctx) (AgentPtr cr))
  = match close_error response with
    | None => Returned (managed.no_creation, Some e)
    | Some _ => Exited 1
    end
  /\ object (snd (call (Create h c ctx) (AgentPtr cr))) = AgentPtr cr.
Proof.
  intros Hsvc Hcreate. rewrite (Create_run _ _ _ _ _ _ _ _ Hsvc Hcreate).
  go_run. destruct response as [r |]; cbn; [destruct (nextgen.Body_Close r) |];
    split; reflexivity.
Qed.

Lemma Create_succeeded_run (h : Host) (c : external) (ctx : nextgen.Context)
    (cr : v1alpha1.Agent) (svc : HarnessService) (agent : nextgen.V1Agent)
    (response : option nextgen.Response) (status : string) :
  service c = Some svc ->
  remote_create h svc ctx cr = (agent, response, None) ->
  remote_health agent = Some status ->
  fst (call (Create h c ctx) (AgentPtr cr))
  = match close_error response with
    | None => Returned ({| managed.CreationDetails := Some ∅ |}, None)
    | Some _ => Exited 1
    end
  /\ object (snd (call (Create h c ctx) (AgentPtr cr)))
     = AgentPtr (v1alpha1.SetState status cr).
Proof.
  intros Hsvc Hcreate Hhealth. rewrite (Create_run _ _ _ _ _ _ _ _ Hsvc Hcreate).
  unfold remote_health in Hhealth.
  destruct (nextgen.Health agent) as [health |] eqn:Hh; [| discriminate].
  cbn in Hhealth.
  destruct (nextgen.HarnessGitopsAgent health) as [component |] eqn:Hc; [| discriminate].
  cbn in Hhealth.
  go_run. rewrite Hh. cbn. rewrite Hc. cbn. rewrite Hhealth. cbn.
  destruct response as [r |]; cbn; [destruct (nextgen.Body_Close r) |];
    split; reflexivity.
Qed.

(** ** The desired spec is a frame of every step *)

Lemma only_status_written_refl (mg : Managed) : only_status_written mg mg.
Proof. destruct mg; cbn; auto. Qed.

Lemma only_status_written_trans (a b c : Managed) :
  only_status_written a b -> only_status_written b c -> only_status_written a c.
Proof.
  destruct a, b, c; cbn; try tauto; try congruence.
  intros [-> ->] [-> ->]. auto.
Qed.

Lemma only_status_written_spec (before after : Managed) :
  only_status_written before after -> desired_spec after = desired_spec before.
Proof.
  destruct before, after; cbn; try tauto; try congruence.
  now intros [_ ->].
Qed.

Lemma keeps_ret {A} (a : A) : keeps_spec (mret a).
Proof. intros w. apply only_status_written_refl. Qed.

Lemma keeps_bind {A B} (m : Go A) (f : A -> Go B) :
  keeps_spec m -> (forall a, keeps_spec (f a)) -> keeps_spec (m ≫= f).
Proof.
  intros Hm Hf w. specialize (Hm w). unfold mbind, Go_bind.
  destruct (m w) as [[a | code | reason] w']; cbn in *; try assumption.
  eapply only_status_written_trans; [exact Hm | apply Hf].
Qed.

Lemma keeps_defer {A} (d : Go unit) (body : Go A) :
  keeps_spec body -> keeps_spec d -> keeps_spec (with_defer d body).
Proof.
  intros Hbody Hd w. specialize (Hbody w). unfold with_defer.
  destruct (body w) as [[a | code | reason] w']; cbn in *; try assumption;
    specialize (Hd w'); destruct (d w') as [[[] | code' | reason'] w'']; cbn in *;
    eapply only_status_written_trans; eassumption.
Qed.

Lemma keeps_emit (e : event) : keeps_spec (emit e).
Proof. intros w. apply only_status_written_refl. Qed.

Lemma keeps_load : keeps_spec load.
Proof. intros w. apply only_status_written_refl. Qed.

Lemma keeps_exit {A} (code : Z) : keeps_spec (@os_Exit A code).
Proof. intros w. apply only_status_written_refl. Qed.

Lemma keeps_panic {A} (reason : string) : keeps_spec (@panic A reason).
Proof. intros w. apply only_status_written_refl. Qed.

Lemma keeps_store (f : v1alpha1.Agent -> v1alpha1.Agent) :
  (forall cr, v1alpha1.Meta (f cr) = v1alpha1.Meta cr
              /\ v1alpha1.Spec (f cr) = v1alpha1.Spec cr) ->
  keeps_spec (store f).
Proof.
  intros Hf [mg t]. unfold store. cbn. destruct mg; cbn; [apply Hf | reflexivity].
Qed.

Lemma keeps_SetConditions (cond : xpv1.Condition) :
  keeps_spec (store (v1alpha1.SetConditions cond)).
Proof. apply keeps_store. intros cr. split; reflexivity. Qed.

Lemma keeps_SetState (s : string) : keeps_spec (store (v1alpha1.SetState s)).
Proof. apply keeps_store. intros cr. split; reflexivity. Qed.

Create HintDb frame.

#[local] Hint Resolve keeps_ret keeps_emit keeps_load keeps_exit keeps_panic
  keeps_SetConditions keeps_SetState : frame.

(** One step of a frame proof: split a bind or a deferred call, close a
    primitive, or take the cases of the test the code makes next. *)
Ltac frame_step :=
  match goal with
  | |- keeps_spec (mbind _ _) => apply keeps_bind; [| intros ?]
  | |- keeps_spec (with_defer _ _) => apply keeps_defer
  | |- keeps_spec _ => solve [auto with frame]
  | |- keeps_spec _ => case_match
  end.

Ltac frame := repeat frame_step.

Lemma keeps_deref {A} (p : option A) : keeps_spec (deref p).
Proof. unfold deref. frame. Qed.

Lemma keeps_log_Fatal {A} (line : string) : keeps_spec (@log_Fatal A line).
Proof. unfold log_Fatal. frame. Qed.

#[local] Hint Resolve keeps_deref keeps_log_Fatal : frame.

Lemma keeps_close_response (response : option nextgen.Response) :
  keeps_spec (close_response response).
Proof. unfold close_response. frame. Qed.

Lemma keeps_health_status (agent : nextgen.V1Agent) : keeps_spec (health_status agent).
Proof. unfold health_status. frame. Qed.

Lemma keeps_optional_field (field : option string) : keeps_spec (optional_field field).
Proof. unfold optional_field, log_Printf_s. frame. Qed.

#[local] Hint Resolve keeps_close_response keeps_health_status keeps_optional_field : frame.

Lemma keeps_Observe (h : Host) (c : external) (ctx : nextgen.Context) :
  keeps_spec (Observe h c ctx).
Proof. unfold Observe. frame. Qed.

Lemma keeps_Create (h : Host) (c : external) (ctx : nextgen.Context) :
  keeps_spec (Create h c ctx).
Proof. unfold Create. frame. Qed.

Lemma keeps_Update (c : external) (ctx : nextgen.Context) : keeps_spec (Update c ctx).
Proof. unfold Update. frame. Qed.

Lemma keeps_Delete (c : external) (ctx : nextgen.Context) : keeps_spec (Delete c ctx).
Proof. unfold Delete. frame. Qed.

Lemma keeps_Connect (h : Host) (c : connector) : keeps_spec (Connect h c).
Proof. unfold Connect. frame. Qed.

(** ** Connect *)

(** The path of [Connect] that ends at the credential extraction. *)
Lemma Connect_extraction_failed_run (h : Host) (c : connector) (cr : v1alpha1.Agent)
    (ref : xpv1.Reference) (pc : apisv1alpha1.ProviderConfig)
    (data : list byte) (e : errors.value) :
  let cd := apisv1alpha1.Credentials (apisv1alpha1.Spec pc) in
  resource.Track (usage c) (AgentPtr cr) = None ->
  v1alpha1.GetProviderConfigReference cr = Some ref ->
  resource.Get (kube c) (xpv1.Name ref) = (pc, None) ->
  CommonCredentialExtractor h (apisv1alpha1.Source cd) (kube c) (apisv1alpha1.Selectors cd)
  = (data, Some e) ->
  call (Connect h c) (AgentPtr cr)
  = (Returned (None, Some (errors.withMessage e errGetCreds)),
     {| object := AgentPtr cr;
        trace := [EvTrack (AgentPtr cr); EvKubeGet (xpv1.Name ref);
                  EvExtractCredentials (apisv1alpha1.Source cd) (apisv1alpha1.Selectors cd)] |}).
Proof.
  intros cd Htrack Href Hget Hextract. subst cd. go_run.
  rewrite Htrack, Href. cbn. rewrite Hget. cbn. now rewrite Hextract.
Qed.

Lemma Connect_extraction_in_trace (h : Host) (c : connector) (mg : Managed)
    (source : string) (selectors : apisv1alpha1.CommonCredentialSelectors)
    (data : list byte) (e : errors.value) :
  In (EvExtractCredentials source selectors) (trace (snd (call (Connect h c) mg))) ->
  CommonCredentialExtractor h source (kube c) selectors = (data, Some e) ->
  fst (call (Connect h c) mg) = Returned (None, Some (errors.withMessage e errGetCreds))
  /\ filter constructs_client (trace (snd (call (Connect h c) mg))) = [].
Proof.
  intros Hin Hfailed. go_run.
  repeat (case_match; cbn in *; simplify_eq); simpl in *;
    repeat match goal with
           | H : _ \/ _ |- _ => destruct H
           | H : False |- _ => destruct H
           end;
    simplify_eq;
    match goal with
    | Hextract : CommonCredentialExtractor ?host ?source ?kube ?selectors = _,
      Hother : CommonCredentialExtractor ?host ?source ?kube ?selectors = _ |- _ =>
      rewrite Hextract in Hother; simplify_eq
    end.
  split; reflexivity.
Qed.

Lemma Connect_never_exits (h : Host) (c : connector) (mg : Managed) (code : Z) :
  fst (call (Connect h c) mg) <> Exited code.
Proof. go_run. repeat (case_match; cbn in *; simplify_eq); discriminate. Qed.

Lemma Connect_error_shape (h : Host) (c : connector) (mg : Managed)
    (client : option external) (e : errors.value) :
  fst (call (Connect h c) mg) = Returned (client, Some e) ->
  client = None /\ (e = errors.fundamental errNotAgent \/ contextual e).
Proof.
  unfold contextual. intros Hcall. go_run.
  repeat (case_match; cbn in *; simplify_eq); (split; [reflexivity |]);
    first [left; reflexivity | right; eexists _, _; split; [reflexivity |]; cbn; tauto].
Qed.

(** ** What the external client returns as an error, and when it exits *)

Lemma Observe_error_shape (h : Host) (c : external) (ctx : nextgen.Context) (mg : Managed)
    (obs : managed.ExternalObservation) (e : errors.value) :
  fst (call (Observe h c ctx) mg) = Returned (obs, Some e) ->
  e = errors.fundamental errNotAgent /\ desired_spec mg = None.
Proof.
  intros Hcall. go_run.
  repeat (case_match; cbn in *; simplify_eq); split; reflexivity.
Qed.

Lemma Observe_without_account (h : Host) (c : external) (ctx : nextgen.Context)
    (cr : v1alpha1.Agent) :
  v1alpha1.AccountIdentifier (v1alpha1.ForProvider (v1alpha1.Spec cr)) = None ->
  call (Observe h c ctx) (AgentPtr cr)
  = (Exited 1,
     {| object := AgentPtr cr; trace := [EvLog "AccountIndentifier is required"] |}).
Proof. intros Hnone. go_run. now rewrite Hnone. Qed.

Lemma Create_error_shape (h : Host) (c : external) (ctx : nextgen.Context) (mg : Managed)
    (creation : managed.ExternalCreation) (e : errors.value) :
  fst (call (Create h c ctx) mg) = Returned (creation, Some e) ->
  (e = errors.fundamental errNotAgent /\ desired_spec mg = None)
  \/ exists cr svc agent response,
       mg = AgentPtr cr /\ service c = Some svc
       /\ remote_create h svc ctx cr = (agent, response, Some e).
Proof.
  intros Hcall. destruct mg as [cr | kind].
  - right. destruct (service c) as [svc |] eqn:Hsvc.
    + destruct (remote_create h svc ctx cr) as [[agent response] err] eqn:Hcreate.
      exists cr, svc, agent, response. repeat split; try assumption.
      rewrite (Create_run _ _ _ _ _ _ _ _ Hsvc Hcreate) in Hcall.
      rewrite Hcreate. f_equal. clear Hcreate.
      go_run. repeat (case_match; cbn in *; simplify_eq); reflexivity.
    + exfalso. go_run. rewrite Hsvc in Hcall.
      repeat (case_match; cbn in *; simplify_eq).
  - left. go_run. unfold errors.New in Hcall. simplify_eq. split; reflexivity.
Qed.

(** * The claims of the specification *)

(** ** Observe *)

(** C1, as the claim states it, fails: the lookup reports not-found, but
    closing the body of the response fails, and the deferred closure ends
    the process with [log.Fatal] before [Observe] returns anything. *)
Lemma Observe_not_found_unclosable_exits :
  not_found (snd (fst example.missing_unclosable)) = true
  /\ snd example.missing_unclosable <> None
  /\ call (Observe example.h (example.client example.missing_unclosable example.healthy)
                   example.ctx)
          (AgentPtr example.cr)
     = (Exited 1,
        {| object := AgentPtr example.cr;
           trace := [EvAgentGet {| nextgen.ContextAPIKey := Some "pat.key" |}
                       "" "nYY7inrwTrqqa3r1a_-krg";
                     EvBodyClose; EvLog "close failed"] |}).
Proof. split; [reflexivity | split; [discriminate | reflexivity]]. Qed.

(** C1, amended: for every Agent resource, if the remote lookup of
    [Observe] reports not-found (HTTP 404) or returns any error, then
    [Observe] returns [ResourceExists = false] and a nil error when there
    is no response to close or closing its body succeeds; when closing the
    body fails the process exits with status 1. *)
Theorem Observe_lookup_failed (h : Host) (c : external) (ctx : nextgen.Context)
    (cr : v1alpha1.Agent) (svc : HarnessService) (account : string)
    (agent : nextgen.V1Agent) (response : option nextgen.Response) (err : error) :
  service c = Some svc ->
  v1alpha1.AccountIdentifier (v1alpha1.ForProvider (v1alpha1.Spec cr)) = Some account ->
  remote_lookup h svc ctx cr account = (agent, response, err) ->
  err <> None \/ not_found response = true ->
  fst (call (Observe h c ctx) (AgentPtr cr))
  = match close_error response with
    | None => Returned ({| managed.ResourceExists := false;
                           managed.ResourceUpToDate := false;
                           managed.ResourceLateInitialized := false;
                           managed.ObservationDetails := None |}, None)
    | Some _ => Exited 1
    end.
Proof.
  intros Hsvc Haccount Hlookup Hfailed.
  apply (Observe_lookup_failed_run h c ctx cr svc account agent response err);
    try assumption.
  destruct Hfailed as [Herr | ->].
  - destruct err; [reflexivity | congruence].
  - apply orb_true_r.
Qed.

Lemma Observe_lookup_failed_witness :
  not_found (example.response_of 404 None) = true
  /\ fst (call (Observe example.h (example.client example.missing example.healthy)
                        example.ctx)
               (AgentPtr example.cr))
     = Returned ({| managed.ResourceExists := false;
                    managed.ResourceUpToDate := false;
                    managed.ResourceLateInitialized := false;
                    managed.ObservationDetails := None |}, None).
Proof.
  split; [reflexivity |].
  exact (Observe_lookup_failed
           example.h
           (example.client example.missing example.healthy)
           example.ctx example.cr
           {| AgentApi := example.api example.missing example.healthy |}
           "nYY7inrwTrqqa3r1a_-krg"
           (example.remote_agent None) (example.response_of 404 None)
           (Some (errors.foreign "404 Not Found"))
           eq_refl eq_refl eq_refl (or_intror eq_refl)).
Defined.

(** C5: for every Agent resource, when the remote lookup of [Observe]
    succeeds and the remote health status is the HEALTHY sentinel, the
    Available condition is set on the status of the resource; and
    [Observe] then returns exists and up to date with a nil error, unless
    closing the body of the response fails. *)
Theorem Observe_healthy_is_available (h : Host) (c : external) (ctx : nextgen.Context)
    (cr : v1alpha1.Agent) (svc : HarnessService) (account : string)
    (agent : nextgen.V1Agent) (response : option nextgen.Response) :
  service c = Some svc ->
  v1alpha1.AccountIdentifier (v1alpha1.ForProvider (v1alpha1.Spec cr)) = Some account ->
  remote_lookup h svc ctx cr account = (agent, response, None) ->
  not_found response = false ->
  remote_health agent = Some nextgen.HEALTHY_Servicev1HealthStatus ->
  is_available (object (snd (call (Observe h c ctx) (AgentPtr cr))))
  /\ (close_error response = None ->
      fst (call (Observe h c ctx) (AgentPtr cr))
      = Returned ({| managed.ResourceExists := true;
                     managed.ResourceUpToDate := true;
                     managed.ResourceLateInitialized := false;
                     managed.ObservationDetails := None |}, None)).
Proof.
  intros Hsvc Haccount Hlookup Hfound Hhealth.
  destruct (Observe_found_run h c ctx cr svc account agent response None
              Hsvc Haccount Hlookup _ eq_refl Hfound Hhealth) as [Hout Hobj].
  split.
  - rewrite Hobj. cbn. eexists. split; [reflexivity |].
    apply (GetCondition_SetConditions _ (xpv1.Available (Now h))).
  - intros Hclose. now rewrite Hout, Hclose.
Qed.

Lemma Observe_healthy_is_available_witness :
  remote_health (example.remote_agent (example.health_of "HEALTHY")) = Some "HEALTHY"
  /\ is_available
       (object (snd (call (Observe example.h
                                   (example.client example.healthy example.healthy)
                                   example.ctx)
                          (AgentPtr example.cr)))).
Proof.
  split; [reflexivity |].
  exact (proj1 (Observe_healthy_is_available
           example.h
           (example.client example.healthy example.healthy)
           example.ctx example.cr
           {| AgentApi := example.api example.healthy example.healthy |}
           "nYY7inrwTrqqa3r1a_-krg"
           (example.remote_agent (example.health_of "HEALTHY"))
           (example.response_of 200 None)
           eq_refl eq_refl eq_refl eq_refl eq_refl)).
Defined.

(** C7: whenever [Observe] reports [ResourceExists = true] it also reports
    [ResourceUpToDate = true]: it never tells the reconciler that an
    update is needed. *)
Theorem Observe_exists_is_up_to_date (h : Host) (c : external) (ctx : nextgen.Context)
    (mg : Managed) (obs : managed.ExternalObservation) (err : error) :
  fst (call (Observe h c ctx) mg) = Returned (obs, err) ->
  managed.ResourceExists obs = true ->
  managed.ResourceUpToDate obs = true.
Proof.
  intros Hcall. destruct (call (Observe h c ctx) mg) as [o w] eqn:Hrun.
  cbn in Hcall. subst o. exact (Observe_returns_up_to_date h c ctx mg obs err w Hrun).
Qed.

Lemma Observe_exists_is_up_to_date_witness :
  fst (call (Observe example.h (example.client example.healthy example.healthy)
                     example.ctx)
            (AgentPtr example.cr))
  = Returned ({| managed.ResourceExists := true;
                 managed.ResourceUpToDate := true;
                 managed.ResourceLateInitialized := false;
                 managed.ObservationDetails := None |}, None)
  /\ managed.ResourceUpToDate
       {| managed.ResourceExists := true;
          managed.ResourceUpToDate := true;
          managed.ResourceLateInitialized := false;
          managed.ObservationDetails := None |} = true.
Proof.
  split; [reflexivity |].
  exact (Observe_exists_is_up_to_date
           example.h
           (example.client example.healthy example.healthy)
           example.ctx (AgentPtr example.cr) _ None eq_refl eq_refl).
Defined.

(** ** Create *)

(** C2, as the claim states it, fails on two inputs.  The remote create
    call succeeds with a healthy agent, but the body of the response cannot
    be closed: the deferred closure ends the process with [log.Fatal], so
    [Create] does not return without an error.  And the remote create call
    succeeds with an agent that carries no health status: [Create] panics
    on the nil pointer and the observed [State] is not written. *)
Lemma Create_success_not_reported :
  (snd scenario.created_unclosable = None
   /\ remote_health (fst (fst scenario.created_unclosable)) = Some "HEALTHY"
   /\ fst (call (Create example.h
                        (example.client example.healthy scenario.created_unclosable)
                        example.ctx)
                (AgentPtr example.cr))
      = Exited 1)
  /\ (snd scenario.without_health = None
      /\ close_error (snd (fst scenario.without_health)) = None
      /\ call (Create example.h
                      (example.client example.healthy scenario.without_health)
                      example.ctx)
              (AgentPtr example.cr_unset)
         = (Panicked nil_dereference,
            {| object := AgentPtr example.cr_unset;
               trace := [EvAgentCreate {| nextgen.ContextAPIKey := Some "pat.key" |}
                           (expected_body example.cr_unset);
                         EvBodyClose] |})
      /\ observed_state (AgentPtr example.cr_unset) = Some "").
Proof.
  split.
  - split; [reflexivity | split; reflexivity].
  - split; [reflexivity | split; [reflexivity | split; reflexivity]].
Qed.

(** C2, amended: for every Agent resource and a client that has a service,
    [Create] builds the payload from the optional string fields of the
    spec (account, project and organization identifiers, description),
    with the empty string for each one that is unset, an [Identifier] that
    is always empty, the name of the object and fixed metadata, and no
    tags; the submission of that payload is the one remote call of
    [Create], whatever fields are unset.  When the remote call returns no
    error and the agent it returns carries a health status, that status
    string is copied into the observed [State], and [Create] returns a nil
    error when there is no response to close or closing its body succeeds;
    when closing the body fails the process exits with status 1. *)
Theorem Create_submits_payload (h : Host) (c : external) (ctx : nextgen.Context)
    (cr : v1alpha1.Agent) (svc : HarnessService)
    (agent : nextgen.V1Agent) (response : option nextgen.Response) (err : error) :
  service c = Some svc ->
  remote_create h svc ctx cr = (agent, response, err) ->
  remote_calls (trace (snd (call (Create h c ctx) (AgentPtr cr))))
  = [EvAgentCreate (request_context h ctx)
       {| nextgen.AccountIdentifier :=
            default "" (v1alpha1.AccountIdentifier (v1alpha1.ForProvider (v1alpha1.Spec cr)));
          nextgen.ProjectIdentifier :=
            default "" (v1alpha1.ProjectIdentifier (v1alpha1.ForProvider (v1alpha1.Spec cr)));
          nextgen.OrgIdentifier :=
            default "" (v1alpha1.OrgIdentifier (v1alpha1.ForProvider (v1alpha1.Spec cr)));
          nextgen.Identifier := "";
          nextgen.Name := v1alpha1.GetName cr;
          nextgen.Metadata :=
            Some {| nextgen.Namespace := "harness";
                    nextgen.HighAvailability := true;
                    nextgen.MappedProjects := Some ∅ |};
          nextgen.Description :=
            default "" (v1alpha1.Description (v1alpha1.ForProvider (v1alpha1.Spec cr)));
          nextgen.Health := None |}]
  /\ (forall status,
       err = None -> remote_health agent = Some status ->
       observed_state (object (snd (call (Create h c ctx) (AgentPtr cr)))) = Some status
       /\ fst (call (Create h c ctx) (AgentPtr cr))
          = match close_error response with
            | None => Returned ({| managed.CreationDetails := Some ∅ |}, None)
            | Some _ => Exited 1
            end).
Proof.
  intros Hsvc Hcreate. split.
  - rewrite (Create_trace _ _ _ _ _ _ _ _ Hsvc Hcreate). unfold remote_calls.
    rewrite !filter_app. fold (remote_calls (field_log cr)).
    fold (remote_calls (closing_trace response)).
    now rewrite field_log_not_remote, closing_trace_not_remote.
  - intros status -> Hhealth.
    destruct (Create_succeeded_run _ _ _ _ _ _ _ _ Hsvc Hcreate Hhealth) as [Hout Hobj].
    split; [now rewrite Hobj | exact Hout].
Qed.

Lemma Create_submits_payload_witness :
  remote_calls
    (trace (snd (call (Create example.h (example.client example.healthy example.healthy)
                              example.ctx)
                      (AgentPtr example.cr_unset))))
  = [EvAgentCreate {| nextgen.ContextAPIKey := Some "pat.key" |}
       {| nextgen.AccountIdentifier := "";
          nextgen.ProjectIdentifier := "";
          nextgen.OrgIdentifier := "";
          nextgen.Identifier := "";
          nextgen.Name := "example";
          nextgen.Metadata :=
            Some {| nextgen.Namespace := "harness";
                    nextgen.HighAvailability := true;
                    nextgen.MappedProjects := Some ∅ |};
          nextgen.Description := "";
          nextgen.Health := None |}]
  /\ observed_state
       (object (snd (call (Create example.h
                                  (example.client example.healthy example.healthy)
                                  example.ctx)
                          (AgentPtr example.cr_unset))))
     = Some "HEALTHY"
  /\ fst (call (Create example.h (example.client example.healthy example.healthy)
                       example.ctx)
               (AgentPtr example.cr_unset))
     = Returned ({| managed.CreationDetails := Some ∅ |}, None).
Proof.
  pose proof (Create_submits_payload
                example.h (example.client example.healthy example.healthy)
                example.ctx example.cr_unset
                {| AgentApi := example.api example.healthy example.healthy |}
                (example.remote_agent (example.health_of "HEALTHY"))
                (example.response_of 200 None) None eq_refl eq_refl) as [Hsent Hcopied].
  destruct (Hcopied "HEALTHY" eq_refl eq_refl) as [Hstate Hreturned].
  exact (conj Hsent (conj Hstate Hreturned)).
Defined.

(** C6, as the claim states it, fails: the remote create call returns an
    error together with a response whose body cannot be closed, and the
    deferred closure ends the process instead of letting [Create] return
    the remote error. *)
Lemma Create_rejected_unclosable_exits :
  snd example.rejected_unclosable = Some (errors.foreign "400 Bad Request")
  /\ fst (call (Create example.h
                       (example.client example.healthy example.rejected_unclosable)
                       example.ctx)
               (AgentPtr example.cr))
     = Exited 1.
Proof. split; reflexivity. Qed.

(** C6, amended: for every Agent resource, if the remote create call of
    [Create] returns an error, the observed status of the resource is left
    as it was, and [Create] returns that very error, not wrapped, when
    there is no response to close or closing its body succeeds; when
    closing the body fails the process exits with status 1. *)
Theorem Create_remote_error (h : Host) (c : external) (ctx : nextgen.Context)
    (cr : v1alpha1.Agent) (svc : HarnessService)
    (agent : nextgen.V1Agent) (response : option nextgen.Response) (e : errors.value) :
  service c = Some svc ->
  remote_create h svc ctx cr = (agent, response, Some e) ->
  fst (call (Create h c ctx) (AgentPtr cr))
  = match close_error response with
    | None => Returned (managed.no_creation, Some e)
    | Some _ => Exited 1
    end
  /\ observed_status (object (snd (call (Create h c ctx) (AgentPtr cr))))
     = Some (v1alpha1.Status cr).
Proof.
  intros Hsvc Hcreate.
  destruct (Create_failed_run _ _ _ _ _ _ _ _ Hsvc Hcreate) as [Hout Hobj].
  split; [exact Hout | now rewrite Hobj].
Qed.

Lemma Create_remote_error_witness :
  remote_create example.h {| AgentApi := example.api example.healthy example.refused |}
    example.ctx example.cr
  = (example.remote_agent None, None, Some (errors.foreign "connection refused"))
  /\ fst (call (Create example.h (example.client example.healthy example.refused)
                       example.ctx)
               (AgentPtr example.cr))
     = Returned (managed.no_creation, Some (errors.foreign "connection refused"))
  /\ observed_status
       (object (snd (call (Create example.h
                                  (example.client example.healthy example.refused)
                                  example.ctx)
                          (AgentPtr example.cr))))
     = Some (v1alpha1.Status example.cr).
Proof.
  split; [reflexivity |].
  exact (Create_remote_error
           example.h (example.client example.healthy example.refused)
           example.ctx example.cr
           {| AgentApi := example.api example.healthy example.refused |}
           (example.remote_agent None) None (errors.foreign "connection refused")
           eq_refl eq_refl).
Defined.

(** ** Connect *)

(** C9: for every managed resource, if the credential extraction that
    [Connect] runs fails, [Connect] returns no client and the extraction
    error wrapped with "cannot get credentials", and the trace of the call
    has no construction of a service. *)
Theorem Connect_credentials_failure (h : Host) (c : connector) (mg : Managed)
    (source : string) (selectors : apisv1alpha1.CommonCredentialSelectors)
    (data : list byte) (e : errors.value) :
  In (EvExtractCredentials source selectors) (trace (snd (call (Connect h c) mg))) ->
  CommonCredentialExtractor h source (kube c) selectors = (data, Some e) ->
  fst (call (Connect h c) mg) = Returned (None, errors.Wrap (Some e) errGetCreds)
  /\ errors.Wrap (Some e) errGetCreds
     = Some (errors.withMessage e "cannot get credentials")
  /\ filter constructs_client (trace (snd (call (Connect h c) mg))) = [].
Proof.
  intros Hin Hfailed.
  destruct (Connect_extraction_in_trace h c mg source selectors data e Hin Hfailed)
    as [Hout Hnone].
  repeat split; assumption.
Qed.

Lemma Connect_credentials_failure_witness :
  In (EvExtractCredentials "Secret"
        (apisv1alpha1.Selectors
           (apisv1alpha1.Credentials (apisv1alpha1.Spec example.provider_config))))
     (trace (snd (call (Connect (example.host example.extractor_failing)
                                (example.conn example.h))
                       (AgentPtr example.cr))))
  /\ fst (call (Connect (example.host example.extractor_failing)
                        (example.conn example.h))
               (AgentPtr example.cr))
     = Returned (None,
                 Some (errors.withMessage
                         (errors.foreign "cannot get credentials secret")
                         "cannot get credentials"))
  /\ filter constructs_client
       (trace (snd (call (Connect (example.host example.extractor_failing)
                                  (example.conn example.h))
                         (AgentPtr example.cr))))
     = [].
Proof.
  assert (Hin :
    In (EvExtractCredentials "Secret"
          (apisv1alpha1.Selectors
             (apisv1alpha1.Credentials (apisv1alpha1.Spec example.provider_config))))
       (trace (snd (call (Connect (example.host example.extractor_failing)
                                  (example.conn example.h))
                         (AgentPtr example.cr)))))
    by (right; right; left; reflexivity).
  split; [exact Hin |].
  destruct (Connect_credentials_failure
              (example.host example.extractor_failing) (example.conn example.h)
              (AgentPtr example.cr) "Secret" _ [] _ Hin eq_refl)
    as [Hout [_ Hnone]].
  exact (conj Hout Hnone).
Defined.

(** ** Failures and process termination *)

(** C3, as the claim states it, fails: on an Agent whose
    [AccountIdentifier] is unset, [Observe] logs a line and ends the
    process with status 1; nothing is returned to the reconciler. *)
Lemma Observe_without_account_exits :
  call (Observe example.h (example.client example.healthy example.healthy) example.ctx)
       (AgentPtr example.cr_unset)
  = (Exited 1,
     {| object := AgentPtr example.cr_unset;
        trace := [EvLog "AccountIndentifier is required"] |}).
Proof. reflexivity. Qed.

(** C3, amended: [Connect], [Update] and [Delete] never end the process
    by an exit.  Every error that [Connect] returns is the type-mismatch
    error or a collaborator's error wrapped with one of its contextual
    messages; [Delete] returns nil or the type-mismatch error and [Update]
    always nil; the only error [Observe] returns is the type-mismatch
    error, and every other error that [Create] returns is the remote API
    error, not wrapped.  [Observe] ends the process with status 1 when
    [AccountIdentifier] is unset. *)
Theorem adapter_failures (h : Host) (ctx : nextgen.Context) :
  (forall (c : connector) (mg : Managed) (code : Z),
      fst (call (Connect h c) mg) <> Exited code)
  /\ (forall (c : connector) (mg : Managed) (client : option external) (e : errors.value),
      fst (call (Connect h c) mg) = Returned (client, Some e) ->
      client = None /\ (e = errors.fundamental errNotAgent \/ contextual e))
  /\ (forall (c : external) (mg : Managed),
      fst (call (Update c ctx) mg) = Returned (managed.no_update, None))
  /\ (forall (c : external) (mg : Managed),
      fst (call (Delete c ctx) mg) = Returned None
      \/ fst (call (Delete c ctx) mg) = Returned (errors.New errNotAgent))
  /\ (forall (c : external) (mg : Managed) (obs : managed.ExternalObservation)
             (e : errors.value),
      fst (call (Observe h c ctx) mg) = Returned (obs, Some e) ->
      e = errors.fundamental errNotAgent /\ desired_spec mg = None)
  /\ (forall (c : external) (mg : Managed) (creation : managed.ExternalCreation)
             (e : errors.value),
      fst (call (Create h c ctx) mg) = Returned (creation, Some e) ->
      (e = errors.fundamental errNotAgent /\ desired_spec mg = None)
      \/ exists cr svc agent response,
           mg = AgentPtr cr /\ service c = Some svc
           /\ remote_create h svc ctx cr = (agent, response, Some e))
  /\ (forall (c : external) (cr : v1alpha1.Agent),
      v1alpha1.AccountIdentifier (v1alpha1.ForProvider (v1alpha1.Spec cr)) = None ->
      fst (call (Observe h c ctx) (AgentPtr cr)) = Exited 1).
Proof.
  repeat apply conj.
  - intros c mg code. apply Connect_never_exits.
  - intros c mg client e. apply Connect_error_shape.
  - reflexivity.
  - intros c [cr | kind]; [left | right]; reflexivity.
  - intros c mg obs e. apply Observe_error_shape.
  - intros c mg creation e. apply Create_error_shape.
  - intros c cr Hnone. now rewrite Observe_without_account.
Qed.

Lemma adapter_failures_witness :
  v1alpha1.AccountIdentifier
    (v1alpha1.ForProvider (v1alpha1.Spec example.cr_unset)) = None
  /\ fst (call (Observe example.h (example.client example.healthy example.healthy)
                        example.ctx)
               (AgentPtr example.cr_unset))
     = Exited 1
  /\ contextual (errors.withMessage (errors.foreign "cannot get credentials secret")
                                    errGetCreds).
Proof.
  destruct (adapter_failures example.h example.ctx)
    as (_ & _ & _ & _ & _ & _ & Hexit).
  destruct (adapter_failures (example.host example.extractor_failing) example.ctx)
    as (_ & Hshape & _).
  split; [reflexivity |]. split.
  - exact (Hexit (example.client example.healthy example.healthy)
                 example.cr_unset eq_refl).
  - destruct (Hshape (example.conn example.h) (AgentPtr example.cr) None
                     (errors.withMessage (errors.foreign "cannot get credentials secret")
                                         errGetCreds)
                     eq_refl) as [_ [Habsurd | Hcontextual]].
    + discriminate Habsurd.
    + exact Hcontextual.
Defined.

(** ** The desired spec *)

(** C10: for every managed resource, [Observe], [Create], [Update] and
    [Delete] leave the desired spec, and with it the [ForProvider]
    parameters, as they found it, however the call ends; what they write
    is the observed status. *)
Theorem adapter_keeps_desired_spec (h : Host) (c : external) (ctx : nextgen.Context)
    (mg : Managed) :
  desired_spec (object (snd (call (Observe h c ctx) mg))) = desired_spec mg
  /\ desired_spec (object (snd (call (Create h c ctx) mg))) = desired_spec mg
  /\ desired_spec (object (snd (call (Update c ctx) mg))) = desired_spec mg
  /\ desired_spec (object (snd (call (Delete c ctx) mg))) = desired_spec mg.
Proof.
  repeat apply conj; apply only_status_written_spec; unfold call.
  - apply (keeps_Observe h c ctx {| object := mg; trace := [] |}).
  - apply (keeps_Create h c ctx {| object := mg; trace := [] |}).
  - apply (keeps_Update c ctx {| object := mg; trace := [] |}).
  - apply (keeps_Delete c ctx {| object := mg; trace := [] |}).
Qed.

(** * Further properties of the adapter *)

(** ** Connect: one collaborator after the other *)

(** X1: [Connect] calls its collaborators in the order of the source, usage
    tracking, lookup of the provider configuration, credential extraction,
    construction of the service, each at most once and nothing else. *)
Theorem Connect_steps_in_order (h : Host) (c : connector) (mg : Managed) :
  map step_of (trace (snd (call (Connect h c) mg)))
  `prefix_of` [Some TrackUsage; Some GetProviderConfig;
               Some ExtractCredentials; Some NewService].
Proof.
  go_run. repeat (case_match; cbn in *; simplify_eq);
    match goal with
    | |- ?l `prefix_of` ?full =>
      let n := eval cbv in (length l) in exists (drop n full); reflexivity
    end.
Qed.

(** X2: When usage tracking fails, [Connect] returns that error wrapped with
    "cannot track ProviderConfig usage" and calls nothing else. *)
Theorem Connect_tracking_failure (h : Host) (c : connector) (cr : v1alpha1.Agent)
    (e : errors.value) :
  resource.Track (usage c) (AgentPtr cr) = Some e ->
  call (Connect h c) (AgentPtr cr)
  = (Returned (None, Some (errors.withMessage e "cannot track ProviderConfig usage")),
     {| object := AgentPtr cr; trace := [EvTrack (AgentPtr cr)] |}).
Proof. intros Htrack. go_run. now rewrite Htrack. Qed.

Lemma Connect_tracking_failure_witness :
  resource.Track (usage (scenario.conn_untracked example.h)) (AgentPtr example.cr)
  = Some (errors.foreign "no usage")
  /\ call (Connect example.h (scenario.conn_untracked example.h)) (AgentPtr example.cr)
     = (Returned (None, Some (errors.withMessage (errors.foreign "no usage")
                                "cannot track ProviderConfig usage")),
        {| object := AgentPtr example.cr; trace := [EvTrack (AgentPtr example.cr)] |}).
Proof.
  split; [reflexivity |].
  exact (Connect_tracking_failure example.h (scenario.conn_untracked example.h)
           example.cr (errors.foreign "no usage") eq_refl).
Defined.

(** X3: When the provider configuration cannot be fetched, [Connect] returns
    that error wrapped with "cannot get ProviderConfig"; no credentials
    are extracted and no service is constructed. *)
Theorem Connect_lookup_failure (h : Host) (c : connector) (cr : v1alpha1.Agent)
    (ref : xpv1.Reference) (pc : apisv1alpha1.ProviderConfig) (e : errors.value) :
  resource.Track (usage c) (AgentPtr cr) = None ->
  v1alpha1.GetProviderConfigReference cr = Some ref ->
  resource.Get (kube c) (xpv1.Name ref) = (pc, Some e) ->
  call (Connect h c) (AgentPtr cr)
  = (Returned (None, Some (errors.withMessage e "cannot get ProviderConfig")),
     {| object := AgentPtr cr;
        trace := [EvTrack (AgentPtr cr); EvKubeGet (xpv1.Name ref)] |}).
Proof.
  intros Htrack Href Hget. go_run. rewrite Htrack, Href. cbn. now rewrite Hget.
Qed.

Lemma Connect_lookup_failure_witness :
  resource.Get (kube (scenario.conn_unconfigured example.h)) "example"
  = (example.provider_config, Some (errors.foreign "not found"))
  /\ call (Connect example.h (scenario.conn_unconfigured example.h)) (AgentPtr example.cr)
     = (Returned (None, Some (errors.withMessage (errors.foreign "not found")
                                "cannot get ProviderConfig")),
        {| object := AgentPtr example.cr;
           trace := [EvTrack (AgentPtr example.cr); EvKubeGet "example"] |}).
Proof.
  split; [reflexivity |].
  exact (Connect_lookup_failure example.h (scenario.conn_unconfigured example.h)
           example.cr {| xpv1.Name := "example" |} example.provider_config
           (errors.foreign "not found") eq_refl eq_refl eq_refl).
Defined.

(** X4: When usage tracking succeeds for an Agent that has no reference to a
    provider configuration, [Connect] panics on the nil reference, before
    any lookup. *)
Theorem Connect_missing_reference_panics (h : Host) (c : connector)
    (cr : v1alpha1.Agent) :
  resource.Track (usage c) (AgentPtr cr) = None ->
  v1alpha1.GetProviderConfigReference cr = None ->
  call (Connect h c) (AgentPtr cr)
  = (Panicked nil_dereference,
     {| object := AgentPtr cr; trace := [EvTrack (AgentPtr cr)] |}).
Proof. intros Htrack Href. go_run. now rewrite Htrack, Href. Qed.

Lemma Connect_missing_reference_panics_witness :
  v1alpha1.GetProviderConfigReference scenario.unreferenced = None
  /\ fst (call (Connect example.h (example.conn example.h))
               (AgentPtr scenario.unreferenced))
     = Panicked nil_dereference.
Proof.
  split; [reflexivity |].
  exact (f_equal fst
           (Connect_missing_reference_panics example.h (example.conn example.h)
              scenario.unreferenced eq_refl eq_refl)).
Defined.

(** X6: When [Connect] returns a nil error, every step has succeeded, and the
    client it returns holds whatever service pointer the constructor gave
    for the extracted credentials, nil or not. *)
Theorem Connect_returns_client (h : Host) (c : connector) (mg : Managed)
    (client : option external) :
  fst (call (Connect h c) mg) = Returned (client, None) ->
  exists cr ref pc data svc,
    mg = AgentPtr cr
    /\ resource.Track (usage c) mg = None
    /\ v1alpha1.GetProviderConfigReference cr = Some ref
    /\ resource.Get (kube c) (xpv1.Name ref) = (pc, None)
    /\ CommonCredentialExtractor h
         (apisv1alpha1.Source (apisv1alpha1.Credentials (apisv1alpha1.Spec pc)))
         (kube c)
         (apisv1alpha1.Selectors (apisv1alpha1.Credentials (apisv1alpha1.Spec pc)))
       = (data, None)
    /\ newServiceFn c data = (svc, None)
    /\ client = Some {| service := svc |}.
Proof.
  intros Hcall. go_run. unfold errors.New in *.
  repeat (case_match; cbn in *; simplify_eq).
  eexists _, _, _, _, _. repeat split; eassumption.
Qed.

Lemma Connect_returns_client_witness :
  fst (call (Connect example.h (example.conn example.h)) (AgentPtr example.cr))
  = Returned (Some (example.client example.healthy example.healthy), None)
  /\ exists cr ref pc data svc,
       AgentPtr example.cr = AgentPtr cr
       /\ resource.Track (usage (example.conn example.h)) (AgentPtr example.cr) = None
       /\ v1alpha1.GetProviderConfigReference cr = Some ref
       /\ resource.Get (kube (example.conn example.h)) (xpv1.Name ref) = (pc, None)
       /\ CommonCredentialExtractor example.h
            (apisv1alpha1.Source (apisv1alpha1.Credentials (apisv1alpha1.Spec pc)))
            (kube (example.conn example.h))
            (apisv1alpha1.Selectors (apisv1alpha1.Credentials (apisv1alpha1.Spec pc)))
          = (data, None)
       /\ newServiceFn (example.conn example.h) data = (svc, None)
       /\ Some (example.client example.healthy example.healthy)
          = Some {| service := svc |}.
Proof.
  split; [reflexivity |].
  exact (Connect_returns_client example.h (example.conn example.h)
           (AgentPtr example.cr) _ eq_refl).
Defined.

(** X5: When the constructor of the service fails, [Connect] returns that
    error wrapped with "cannot create new Service" and no client. *)
Theorem Connect_construction_failure (h : Host) (c : connector) (mg : Managed)
    (data : list byte) (svc : option HarnessService) (e : errors.value) :
  In (EvNewService data) (trace (snd (call (Connect h c) mg))) ->
  newServiceFn c data = (svc, Some e) ->
  fst (call (Connect h c) mg)
  = Returned (None, Some (errors.withMessage e "cannot create new Service")).
Proof.
  intros Hin Hfailed. go_run.
  repeat (case_match; cbn in *; simplify_eq); simpl in *;
    repeat match goal with
           | H : _ \/ _ |- _ => destruct H
           | H : False |- _ => destruct H
           end;
    simplify_eq;
    match goal with
    | Hbuild : newServiceFn ?c ?data = _, Hother : newServiceFn ?c ?data = _ |- _ =>
      rewrite Hbuild in Hother; simplify_eq
    end.
  reflexivity.
Qed.

Lemma Connect_construction_failure_witness :
  In (EvNewService [x73; x65; x63; x72; x65; x74]%byte)
     (trace (snd (call (Connect example.h scenario.conn_unbuildable)
                       (AgentPtr example.cr))))
  /\ fst (call (Connect example.h scenario.conn_unbuildable) (AgentPtr example.cr))
     = Returned (None, Some (errors.withMessage (errors.foreign "bad endpoint")
                               "cannot create new Service")).
Proof.
  assert (Hin :
    In (EvNewService [x73; x65; x63; x72; x65; x74]%byte)
       (trace (snd (call (Connect example.h scenario.conn_unbuildable)
                         (AgentPtr example.cr)))))
    by (right; right; right; left; reflexivity).
  split; [exact Hin |].
  exact (Connect_construction_failure example.h scenario.conn_unbuildable
           (AgentPtr example.cr) _ None (errors.foreign "bad endpoint") Hin eq_refl).
Defined.

(** X7: With the constructor that [Setup] installs, [newHarnessService], the
    construction never fails: [Connect] never returns an error wrapped
    with "cannot create new Service", and a client it returns always has
    a service, built from the fixed configuration whatever the extracted
    credentials are. *)
Theorem Connect_with_newHarnessService (h : Host) (c : connector) (mg : Managed)
    (client : option external) (err : error) :
  newServiceFn c = newHarnessService h ->
  fst (call (Connect h c) mg) = Returned (client, err) ->
  (forall cause, err <> Some (errors.withMessage cause "cannot create new Service"))
  /\ (err = None ->
      client
      = Some {| service :=
                  Some {| AgentApi :=
                            NewAPIClient h
                              {| nextgen.BasePath := "https://app.harness.io";
                                 nextgen.RetryMax := 10;
                                 nextgen.RetryWaitMin := 5;
                                 nextgen.RetryWaitMax := 10;
                                 nextgen.Timeout := 10 |} |} |}).
Proof.
  intros Hnew Hcall. go_run. rewrite Hnew in Hcall. unfold newHarnessService in Hcall.
  unfold errors.New in *.
  repeat (case_match; cbn in *; simplify_eq); split;
    solve [intros cause Heq; discriminate Heq | intros Heq; discriminate Heq
          | intros _; reflexivity].
Qed.

Lemma Connect_with_newHarnessService_witness :
  newServiceFn (example.conn example.h) = newHarnessService example.h
  /\ fst (call (Connect example.h (example.conn example.h)) (AgentPtr example.cr))
     = Returned (Some (example.client example.healthy example.healthy), None)
  /\ Some (example.client example.healthy example.healthy)
     = Some {| service :=
                 Some {| AgentApi :=
                           NewAPIClient example.h
                             {| nextgen.BasePath := "https://app.harness.io";
                                nextgen.RetryMax := 10;
                                nextgen.RetryWaitMin := 5;
                                nextgen.RetryWaitMax := 10;
                                nextgen.Timeout := 10 |} |} |}.
Proof.
  split; [reflexivity |]. split; [reflexivity |].
  exact (proj2 (Connect_with_newHarnessService example.h (example.conn example.h)
                  (AgentPtr example.cr) _ None eq_refl eq_refl) eq_refl).
Defined.

(** ** Observe: what it calls and what it writes *)

Lemma Observe_calls (h : Host) (c : external) (ctx : nextgen.Context)
    (mg : Managed) :
  remote_calls (trace (snd (call (Observe h c ctx) mg)))
  = match mg with
    | AgentPtr cr =>
      let params := v1alpha1.ForProvider (v1alpha1.Spec cr) in
      match v1alpha1.AccountIdentifier params, service c with
      | Some account, Some _ =>
        [EvAgentGet {| nextgen.ContextAPIKey := Some (Getenv h "HARNESS_API_KEY") |}
           (default "" (v1alpha1.Identifier params)) account]
      | _, _ => []
      end
    | OtherManaged _ => []
    end.
Proof.
  go_run. repeat (case_match; cbn in *; simplify_eq); reflexivity.
Qed.

(** X8: [Observe] makes one remote call, the lookup by the identifier of the
    spec (empty when unset) and the account identifier, with the API key of
    the environment in the context, when the resource is an Agent with an
    account identifier and the client has a service; otherwise it makes
    none.  It never creates anything. *)
Theorem Observe_remote_calls (h : Host) (c : external) (ctx : nextgen.Context)
    (mg : Managed) :
  remote_calls (trace (snd (call (Observe h c ctx) mg)))
  = match mg with
    | AgentPtr cr =>
      let params := v1alpha1.ForProvider (v1alpha1.Spec cr) in
      match v1alpha1.AccountIdentifier params, service c with
      | Some account, Some _ =>
        [EvAgentGet {| nextgen.ContextAPIKey := Some (Getenv h "HARNESS_API_KEY") |}
           (default "" (v1alpha1.Identifier params)) account]
      | _, _ => []
      end
    | OtherManaged _ => []
    end.
Proof. apply Observe_calls. Qed.

(** X9: [Observe] never writes the observed [State]: whatever the remote
    answers and however the call ends, the state string is the one the
    resource came with. *)
Theorem Observe_keeps_state (h : Host) (c : external) (ctx : nextgen.Context)
    (mg : Managed) :
  observed_state (object (snd (call (Observe h c ctx) mg))) = observed_state mg.
Proof.
  go_run. repeat (case_match; cbn in *; simplify_eq); reflexivity.
Qed.

(** X10: When the lookup fails (an error or 404), [Observe] writes nothing to
    the resource, conditions included. *)
Theorem Observe_lookup_failed_writes_nothing (h : Host) (c : external)
    (ctx : nextgen.Context) (cr : v1alpha1.Agent) (svc : HarnessService)
    (account : string) (agent : nextgen.V1Agent)
    (response : option nextgen.Response) (err : error) :
  service c = Some svc ->
  v1alpha1.AccountIdentifier (v1alpha1.ForProvider (v1alpha1.Spec cr)) = Some account ->
  remote_lookup h svc ctx cr account = (agent, response, err) ->
  err <> None \/ not_found response = true ->
  object (snd (call (Observe h c ctx) (AgentPtr cr))) = AgentPtr cr.
Proof.
  intros Hsvc Haccount Hlookup Hfailed. unfold remote_lookup in Hlookup.
  assert (Htest : non_nil err || not_found response = true).
  { destruct Hfailed as [Herr | ->]; [| apply orb_true_r].
    destruct err; [reflexivity | congruence]. }
  go_run. rewrite Haccount, Hsvc. cbn. rewrite Hlookup, Htest. cbn.
  destruct response as [r |]; cbn; [destruct (nextgen.Body_Close r) |]; reflexivity.
Qed.

Lemma Observe_lookup_failed_writes_nothing_witness :
  not_found (example.response_of 404 None) = true
  /\ object (snd (call (Observe example.h (example.client example.missing example.healthy)
                                example.ctx)
                       (AgentPtr example.cr)))
     = AgentPtr example.cr.
Proof.
  split; [reflexivity |].
  exact (Observe_lookup_failed_writes_nothing
           example.h (example.client example.missing example.healthy)
           example.ctx example.cr
           {| AgentApi := example.api example.missing example.healthy |}
           "nYY7inrwTrqqa3r1a_-krg"
           (example.remote_agent None) (example.response_of 404 None)
           (Some (errors.foreign "404 Not Found"))
           eq_refl eq_refl eq_refl (or_intror eq_refl)).
Defined.

(** X11: When the lookup succeeds and the remote agent has a health status
    other than HEALTHY, [Observe] writes nothing to the resource (no
    condition is set or withdrawn) and still reports that the resource
    exists and is up to date, unless closing the body fails. *)
Theorem Observe_not_healthy (h : Host) (c : external) (ctx : nextgen.Context)
    (cr : v1alpha1.Agent) (svc : HarnessService) (account : string)
    (agent : nextgen.V1Agent) (response : option nextgen.Response) (status : string) :
  service c = Some svc ->
  v1alpha1.AccountIdentifier (v1alpha1.ForProvider (v1alpha1.Spec cr)) = Some account ->
  remote_lookup h svc ctx cr account = (agent, response, None) ->
  not_found response = false ->
  remote_health agent = Some status ->
  status <> nextgen.HEALTHY_Servicev1HealthStatus ->
  object (snd (call (Observe h c ctx) (AgentPtr cr))) = AgentPtr cr
  /\ (close_error response = None ->
      fst (call (Observe h c ctx) (AgentPtr cr))
      = Returned ({| managed.ResourceExists := true;
                     managed.ResourceUpToDate := true;
                     managed.ResourceLateInitialized := false;
                     managed.ObservationDetails := None |}, None)).
Proof.
  intros Hsvc Haccount Hlookup Hfound Hhealth Hother.
  destruct (Observe_found_run h c ctx cr svc account agent response None
              Hsvc Haccount Hlookup status eq_refl Hfound Hhealth) as [Hout Hobj].
  apply String.eqb_neq in Hother. rewrite Hother in Hobj. split.
  - exact Hobj.
  - intros Hclose. now rewrite Hout, Hclose.
Qed.

Lemma Observe_not_healthy_witness :
  remote_health (example.remote_agent (example.health_of "UNHEALTHY")) = Some "UNHEALTHY"
  /\ "UNHEALTHY" <> nextgen.HEALTHY_Servicev1HealthStatus
  /\ object (snd (call (Observe example.h
                                (example.client scenario.unhealthy example.healthy)
                                example.ctx)
                       (AgentPtr example.cr)))
     = AgentPtr example.cr
  /\ fst (call (Observe example.h (example.client scenario.unhealthy example.healthy)
                        example.ctx)
               (AgentPtr example.cr))
     = Returned ({| managed.ResourceExists := true;
                    managed.ResourceUpToDate := true;
                    managed.ResourceLateInitialized := false;
                    managed.ObservationDetails := None |}, None).
Proof.
  assert (Hother : "UNHEALTHY" <> nextgen.HEALTHY_Servicev1HealthStatus) by discriminate.
  split; [reflexivity |]. split; [exact Hother |].
  pose proof (Observe_not_healthy
                example.h (example.client scenario.unhealthy example.healthy)
                example.ctx example.cr
                {| AgentApi := example.api scenario.unhealthy example.healthy |}
                "nYY7inrwTrqqa3r1a_-krg"
                (example.remote_agent (example.health_of "UNHEALTHY"))
                (example.response_of 200 None) "UNHEALTHY"
                eq_refl eq_refl eq_refl eq_refl eq_refl Hother) as [Hobj Hout].
  exact (conj Hobj (Hout eq_refl)).
Defined.

(** X12: When the lookup succeeds but the remote agent carries no health
    status (a nil pointer on the way to it), [Observe] panics on the nil
    dereference, having written nothing; the deferred closure still runs,
    so a failing close turns the panic into an exit. *)
Theorem Observe_missing_health_panics (h : Host) (c : external) (ctx : nextgen.Context)
    (cr : v1alpha1.Agent) (svc : HarnessService) (account : string)
    (agent : nextgen.V1Agent) (response : option nextgen.Response) :
  service c = Some svc ->
  v1alpha1.AccountIdentifier (v1alpha1.ForProvider (v1alpha1.Spec cr)) = Some account ->
  remote_lookup h svc ctx cr account = (agent, response, None) ->
  not_found response = false ->
  remote_health agent = None ->
  call (Observe h c ctx) (AgentPtr cr)
  = (match close_error response with
     | None => Panicked nil_dereference
     | Some _ => Exited 1
     end,
     {| object := AgentPtr cr;
        trace := EvAgentGet (request_context h ctx)
                   (default "" (v1alpha1.Identifier (v1alpha1.ForProvider (v1alpha1.Spec cr))))
                   account
                 :: closing_trace response |}).
Proof.
  intros Hsvc Haccount Hlookup Hfound Hhealth. unfold remote_lookup in Hlookup.
  unfold remote_health in Hhealth. go_run.
  rewrite Haccount, Hsvc. cbn. rewrite Hlookup, Hfound. cbn.
  destruct (nextgen.Health agent) as [health |]; cbn in *;
    [destruct (nextgen.HarnessGitopsAgent health) as [component |]; cbn in *;
     [rewrite Hhealth; cbn |] |];
    (destruct response as [r |]; cbn; [destruct (nextgen.Body_Close r) |]; reflexivity).
Qed.

Lemma Observe_missing_health_panics_witness :
  remote_health (example.remote_agent None) = None
  /\ call (Observe example.h (example.client scenario.without_health example.healthy)
                   example.ctx)
          (AgentPtr example.cr)
     = (Panicked nil_dereference,
        {| object := AgentPtr example.cr;
           trace := [EvAgentGet {| nextgen.ContextAPIKey := Some "pat.key" |}
                       "" "nYY7inrwTrqqa3r1a_-krg";
                     EvBodyClose] |}).
Proof.
  split; [reflexivity |].
  exact (Observe_missing_health_panics
           example.h (example.client scenario.without_health example.healthy)
           example.ctx example.cr
           {| AgentApi := example.api scenario.without_health example.healthy |}
           "nYY7inrwTrqqa3r1a_-krg" (example.remote_agent None)
           (example.response_of 200 None) eq_refl eq_refl eq_refl eq_refl eq_refl).
Defined.

(** X13: [Observe] ends the process in two cases only, each with status 1: the
    account identifier of the Agent is unset, or the body of the response
    to the lookup cannot be closed. *)
Theorem Observe_exit_cases (h : Host) (c : external) (ctx : nextgen.Context)
    (mg : Managed) (code : Z) :
  fst (call (Observe h c ctx) mg) = Exited code ->
  code = 1
  /\ exists cr,
       mg = AgentPtr cr
       /\ (v1alpha1.AccountIdentifier (v1alpha1.ForProvider (v1alpha1.Spec cr)) = None
           \/ exists svc account agent response err e,
                service c = Some svc
                /\ v1alpha1.AccountIdentifier (v1alpha1.ForProvider (v1alpha1.Spec cr))
                   = Some account
                /\ remote_lookup h svc ctx cr account = (agent, response, err)
                /\ close_error response = Some e).
Proof.
  intros Hcall. unfold remote_lookup. go_run.
  repeat (case_match; cbn in *; simplify_eq);
    (split; [reflexivity |]); eexists; (split; [reflexivity |]);
    first [left; assumption
          | right; eexists _, _, _, _, _, _; repeat split; eassumption].
Qed.

Lemma Observe_exit_cases_witness :
  fst (call (Observe example.h (example.client example.missing_unclosable example.healthy)
                     example.ctx)
            (AgentPtr example.cr))
  = Exited 1
  /\ exists cr,
       AgentPtr example.cr = AgentPtr cr
       /\ (v1alpha1.AccountIdentifier (v1alpha1.ForProvider (v1alpha1.Spec cr)) = None
           \/ exists svc account agent response err e,
                service (example.client example.missing_unclosable example.healthy)
                = Some svc
                /\ v1alpha1.AccountIdentifier (v1alpha1.ForProvider (v1alpha1.Spec cr))
                   = Some account
                /\ remote_lookup example.h svc example.ctx cr account
                   = (agent, response, err)
                /\ close_error response = Some e).
Proof.
  split; [reflexivity |].
  exact (proj2 (Observe_exit_cases
                  example.h (example.client example.missing_unclosable example.healthy)
                  example.ctx (AgentPtr example.cr) 1 eq_refl)).
Defined.

(** ** Observe again: the transition time stays *)

Lemma Equal_true (a b : xpv1.Condition) :
  xpv1.Equal a b = true <->
  xpv1.Type_ a = xpv1.Type_ b /\ xpv1.Status a = xpv1.Status b
  /\ xpv1.Reason a = xpv1.Reason b /\ xpv1.Message a = xpv1.Message b.
Proof.
  unfold xpv1.Equal. rewrite !andb_true_iff, !String.eqb_eq. tauto.
Qed.

Lemma Equal_same_new (x c c' : xpv1.Condition) :
  xpv1.Equal c c' = true -> xpv1.Equal x c' = xpv1.Equal x c.
Proof.
  intros Hcc. apply Equal_true in Hcc as (Ht & Hs & Hr & Hm).
  unfold xpv1.Equal. now rewrite Ht, Hs, Hr, Hm.
Qed.

(** After [SetConditions s c], every condition of the type of [c] equals
    [c] up to the transition time, and there is one. *)
Lemma SetConditions_settled (s : xpv1.ConditionedStatus) (c : xpv1.Condition) :
  let same_type x := String.eqb (xpv1.Type_ x) (xpv1.Type_ c) in
  existsb same_type (xpv1.Conditions (xpv1.SetConditions s c)) = true
  /\ Forall (fun x => same_type x = true -> xpv1.Equal x c = true)
            (xpv1.Conditions (xpv1.SetConditions s c)).
Proof.
  destruct s as [cs]. unfold xpv1.SetConditions. cbn.
  destruct (existsb _ cs) eqn:Hexists.
  - split.
    + rewrite existsb_exists in *. destruct Hexists as (x & Hin & Hx).
      eexists. split; [apply in_map_iff; exists x; split; [reflexivity | exact Hin] |].
      cbn. rewrite Hx. destruct (xpv1.Equal x c); [exact Hx | apply String.eqb_refl].
    + apply Forall_forall. intros y Hy. apply list_elem_of_In, in_map_iff in Hy.
      destruct Hy as (x & <- & _).
      destruct (String.eqb (xpv1.Type_ x) (xpv1.Type_ c)) eqn:Hx.
      * destruct (xpv1.Equal x c) eqn:Hequal; intros _;
          [exact Hequal | apply Equal_refl].
      * congruence.
  - split.
    + rewrite existsb_app. cbn. rewrite String.eqb_refl. now rewrite orb_true_r.
    + apply Forall_app. split.
      * apply Forall_forall. intros x Hx Hsame. apply list_elem_of_In in Hx.
        assert (Hex : existsb (fun e => String.eqb (xpv1.Type_ e) (xpv1.Type_ c)) cs = true)
          by (apply existsb_exists; eauto).
        congruence.
      * constructor; [| constructor]. intros _. apply Equal_refl.
Qed.

(** Setting a condition that is there already, up to the transition
    time, changes nothing. *)
Lemma SetConditions_again (s : xpv1.ConditionedStatus) (c c' : xpv1.Condition) :
  xpv1.Equal c c' = true ->
  xpv1.SetConditions (xpv1.SetConditions s c) c' = xpv1.SetConditions s c.
Proof.
  intros Hcc. destruct (SetConditions_settled s c) as [Hexists Hall].
  assert (Htype : xpv1.Type_ c' = xpv1.Type_ c)
    by (apply Equal_true in Hcc; symmetry; tauto).
  revert Hexists Hall. generalize (xpv1.SetConditions s c). intros [l] Hexists Hall.
  cbn in Hexists, Hall.
  unfold xpv1.SetConditions at 1. cbn in *. rewrite Htype, Hexists. f_equal.
  clear Hexists. induction Hall as [| x l Hx Hall IH]; [reflexivity |].
  cbn. f_equal; [| exact IH].
  destruct (String.eqb (xpv1.Type_ x) (xpv1.Type_ c)) eqn:Hsame; [| reflexivity].
  now rewrite (Equal_same_new x c c' Hcc), Hx.
Qed.

(** X14: A second healthy observation leaves the resource exactly as the first
    one left it: the Available condition is there already, so its
    transition time is not refreshed, whatever the clock says by then. *)
Theorem Observe_again_changes_nothing (h1 h2 : Host) (c : external)
    (ctx : nextgen.Context) (cr : v1alpha1.Agent) (svc : HarnessService)
    (account : string) (agent1 agent2 : nextgen.V1Agent)
    (response1 response2 : option nextgen.Response) :
  service c = Some svc ->
  v1alpha1.AccountIdentifier (v1alpha1.ForProvider (v1alpha1.Spec cr)) = Some account ->
  remote_lookup h1 svc ctx cr account = (agent1, response1, None) ->
  not_found response1 = false ->
  remote_health agent1 = Some nextgen.HEALTHY_Servicev1HealthStatus ->
  remote_lookup h2 svc ctx cr account = (agent2, response2, None) ->
  not_found response2 = false ->
  remote_health agent2 = Some nextgen.HEALTHY_Servicev1HealthStatus ->
  object (snd (call (Observe h2 c ctx)
                    (object (snd (call (Observe h1 c ctx) (AgentPtr cr))))))
  = object (snd (call (Observe h1 c ctx) (AgentPtr cr))).
Proof.
  intros Hsvc Haccount Hlookup1 Hfound1 Hhealth1 Hlookup2 Hfound2 Hhealth2.
  destruct (Observe_found_run h1 c ctx cr svc account agent1 response1 None
              Hsvc Haccount Hlookup1 _ eq_refl Hfound1 Hhealth1) as [_ Hfirst].
  cbn in Hfirst. rewrite Hfirst.
  destruct (Observe_found_run h2 c ctx
              (v1alpha1.SetConditions (xpv1.Available (Now h1)) cr)
              svc account agent2 response2 None
              Hsvc Haccount Hlookup2 _ eq_refl Hfound2 Hhealth2) as [_ Hsecond].
  cbn in Hsecond. rewrite Hsecond. f_equal.
  unfold v1alpha1.SetConditions. cbn. do 2 f_equal.
  apply SetConditions_again. reflexivity.
Qed.

Lemma Observe_again_changes_nothing_witness :
  remote_health (example.remote_agent (example.health_of "HEALTHY")) = Some "HEALTHY"
  /\ object (snd (call (Observe scenario.later
                                (example.client example.healthy example.healthy)
                                example.ctx)
                       (object (snd (call (Observe example.h
                                             (example.client example.healthy example.healthy)
                                             example.ctx)
                                          (AgentPtr example.cr))))))
     = object (snd (call (Observe example.h
                            (example.client example.healthy example.healthy)
                            example.ctx)
                         (AgentPtr example.cr))).
Proof.
  split; [reflexivity |].
  exact (Observe_again_changes_nothing
           example.h scenario.later
           (example.client example.healthy example.healthy)
           example.ctx example.cr
           {| AgentApi := example.api example.healthy example.healthy |}
           "nYY7inrwTrqqa3r1a_-krg"
           (example.remote_agent (example.health_of "HEALTHY"))
           (example.remote_agent (example.health_of "HEALTHY"))
           (example.response_of 200 None) (example.response_of 200 None)
           eq_refl eq_refl eq_refl eq_refl eq_refl eq_refl eq_refl eq_refl).
Defined.

(** ** Create: what it writes and how it ends *)

(** X15: [Create] never writes the conditions of the resource: whatever the
    remote answers and however the call ends, they are the ones the
    resource came with. *)
Theorem Create_keeps_conditions (h : Host) (c : external) (ctx : nextgen.Context)
    (mg : Managed) :
  observed_conditions (object (snd (call (Create h c ctx) mg))) = observed_conditions mg.
Proof.
  go_run. repeat (case_match; cbn in *; simplify_eq); reflexivity.
Qed.

(** X16: When the remote create call succeeds but the agent it returns carries
    no health status, [Create] panics on the nil dereference after the
    agent has been created remotely, and the observed state is not
    written; a failing close of the body turns the panic into an exit. *)
Theorem Create_missing_health_panics (h : Host) (c : external) (ctx : nextgen.Context)
    (cr : v1alpha1.Agent) (svc : HarnessService)
    (agent : nextgen.V1Agent) (response : option nextgen.Response) :
  service c = Some svc ->
  remote_create h svc ctx cr = (agent, response, None) ->
  remote_health agent = None ->
  call (Create h c ctx) (AgentPtr cr)
  = (match close_error response with
     | None => Panicked nil_dereference
     | Some _ => Exited 1
     end,
     {| object := AgentPtr cr;
        trace := field_log cr
                 ++ [EvAgentCreate (request_context h ctx) (expected_body cr)]
                 ++ closing_trace response |}).
Proof.
  intros Hsvc Hcreate Hhealth. rewrite (Create_run _ _ _ _ _ _ _ _ Hsvc Hcreate).
  rewrite (app_assoc (field_log cr)).
  generalize (field_log cr ++ [EvAgentCreate (request_context h ctx) (expected_body cr)]).
  intros prefix. unfold remote_health in Hhealth. go_run.
  destruct (nextgen.Health agent) as [health |]; cbn in *;
    [destruct (nextgen.HarnessGitopsAgent health) as [component |]; cbn in *;
     [rewrite Hhealth; cbn |] |];
    (destruct response as [r |]; cbn; [destruct (nextgen.Body_Close r) |];
     cbn; now rewrite ?app_nil_r, <- ?app_assoc).
Qed.

Lemma Create_missing_health_panics_witness :
  remote_health (example.remote_agent None) = None
  /\ call (Create example.h (example.client example.healthy scenario.without_health)
                  example.ctx)
          (AgentPtr example.cr_unset)
     = (Panicked nil_dereference,
        {| object := AgentPtr example.cr_unset;
           trace := [EvAgentCreate {| nextgen.ContextAPIKey := Some "pat.key" |}
                       (expected_body example.cr_unset);
                     EvBodyClose] |}).
Proof.
  split; [reflexivity |].
  exact (Create_missing_health_panics
           example.h (example.client example.healthy scenario.without_health)
           example.ctx example.cr_unset
           {| AgentApi := example.api example.healthy scenario.without_health |}
           (example.remote_agent None) (example.response_of 200 None)
           eq_refl eq_refl eq_refl).
Defined.

(** X17: [Create] ends the process in one case only, with status 1: the body of
    the response to the create call cannot be closed.  An unset account
    identifier, which makes [Observe] exit, does not. *)
Theorem Create_exit_cases (h : Host) (c : external) (ctx : nextgen.Context)
    (mg : Managed) (code : Z) :
  fst (call (Create h c ctx) mg) = Exited code ->
  code = 1
  /\ exists cr svc agent response err e,
       mg = AgentPtr cr
       /\ service c = Some svc
       /\ remote_create h svc ctx cr = (agent, response, err)
       /\ close_error response = Some e.
Proof.
  intros Hcall. destruct mg as [cr | kind]; [| go_run; discriminate].
  destruct (service c) as [svc |] eqn:Hsvc.
  - destruct (remote_create h svc ctx cr) as [[agent response] err] eqn:Hcreate.
    rewrite (Create_run _ _ _ _ _ _ _ _ Hsvc Hcreate) in Hcall.
    assert (Hclose : code = 1 /\ exists e, close_error response = Some e).
    { clear Hcreate. go_run.
      repeat (case_match; cbn in *; simplify_eq); split; eauto. }
    destruct Hclose as [-> [e Hclose]]. split; [reflexivity |].
    exists cr, svc, agent, response, err, e. auto.
  - exfalso. go_run. rewrite Hsvc in Hcall.
    repeat (case_match; cbn in *; simplify_eq).
Qed.

Lemma Create_exit_cases_witness :
  fst (call (Create example.h
                    (example.client example.healthy example.rejected_unclosable)
                    example.ctx)
            (AgentPtr example.cr_unset))
  = Exited 1
  /\ exists cr svc agent response err e,
       AgentPtr example.cr_unset = AgentPtr cr
       /\ service (example.client example.healthy example.rejected_unclosable) = Some svc
       /\ remote_create example.h svc example.ctx cr = (agent, response, err)
       /\ close_error response = Some e.
Proof.
  split; [reflexivity |].
  exact (proj2 (Create_exit_cases
                  example.h (example.client example.healthy example.rejected_unclosable)
                  example.ctx (AgentPtr example.cr_unset) 1 eq_refl)).
Defined.

(** ** Create and Observe together *)

(** X18: [Observe] looks the agent up under the identifier of the spec, but
    [Create] never sends that identifier: the payload it submits has an
    empty [Identifier], whatever the spec says. *)
Theorem Create_drops_identifier (h : Host) (c : external) (ctx : nextgen.Context)
    (cr : v1alpha1.Agent) (svc : HarnessService) (account identifier : string) :
  service c = Some svc ->
  v1alpha1.AccountIdentifier (v1alpha1.ForProvider (v1alpha1.Spec cr)) = Some account ->
  v1alpha1.Identifier (v1alpha1.ForProvider (v1alpha1.Spec cr)) = Some identifier ->
  remote_calls (trace (snd (call (Observe h c ctx) (AgentPtr cr))))
  = [EvAgentGet (request_context h ctx) identifier account]
  /\ exists body,
       remote_calls (trace (snd (call (Create h c ctx) (AgentPtr cr))))
       = [EvAgentCreate (request_context h ctx) body]
       /\ nextgen.Identifier body = ""
       /\ nextgen.AccountIdentifier body = account.
Proof.
  intros Hsvc Haccount Hidentifier. split.
  - rewrite Observe_calls. cbn. now rewrite Haccount, Hsvc, Hidentifier.
  - exists (expected_body cr).
    destruct (remote_create h svc ctx cr) as [[agent response] err] eqn:Hcreate.
    rewrite (Create_trace _ _ _ _ _ _ _ _ Hsvc Hcreate). unfold remote_calls.
    rewrite !filter_app. fold (remote_calls (field_log cr)).
    fold (remote_calls (closing_trace response)).
    rewrite field_log_not_remote, closing_trace_not_remote.
    repeat split. cbn. now rewrite Haccount.
Qed.

Lemma Create_drops_identifier_witness :
  v1alpha1.Identifier (v1alpha1.ForProvider (v1alpha1.Spec scenario.identified))
  = Some "agent1"
  /\ remote_calls
       (trace (snd (call (Observe example.h
                                  (example.client example.missing example.healthy)
                                  example.ctx)
                         (AgentPtr scenario.identified))))
     = [EvAgentGet {| nextgen.ContextAPIKey := Some "pat.key" |}
          "agent1" "nYY7inrwTrqqa3r1a_-krg"]
  /\ exists body,
       remote_calls
         (trace (snd (call (Create example.h
                                   (example.client example.missing example.healthy)
                                   example.ctx)
                           (AgentPtr scenario.identified))))
       = [EvAgentCreate {| nextgen.ContextAPIKey := Some "pat.key" |} body]
       /\ nextgen.Identifier body = ""
       /\ nextgen.AccountIdentifier body = "nYY7inrwTrqqa3r1a_-krg".
Proof.
  split; [reflexivity |].
  exact (Create_drops_identifier
           example.h (example.client example.missing example.healthy)
           example.ctx scenario.identified
           {| AgentApi := example.api example.missing example.healthy |}
           "nYY7inrwTrqqa3r1a_-krg" "agent1" eq_refl eq_refl eq_refl).
Defined.

(** X19: A successful [Create] followed by a healthy [Observe]: the state that
    [Create] wrote is still there, the Available condition has been added,
    and the desired spec is the one the resource came with. *)
Theorem Create_then_Observe (h : Host) (c : external) (ctx : nextgen.Context)
    (cr : v1alpha1.Agent) (svc : HarnessService) (account status : string)
    (created found : nextgen.V1Agent) (response response' : option nextgen.Response) :
  service c = Some svc ->
  v1alpha1.AccountIdentifier (v1alpha1.ForProvider (v1alpha1.Spec cr)) = Some account ->
  remote_create h svc ctx cr = (created, response, None) ->
  remote_health created = Some status ->
  remote_lookup h svc ctx cr account = (found, response', None) ->
  not_found response' = false ->
  remote_health found = Some nextgen.HEALTHY_Servicev1HealthStatus ->
  object (snd (call (Observe h c ctx)
                    (object (snd (call (Create h c ctx) (AgentPtr cr))))))
  = AgentPtr (v1alpha1.SetConditions (xpv1.Available (Now h))
                (v1alpha1.SetState status cr))
  /\ observed_state (AgentPtr (v1alpha1.SetConditions (xpv1.Available (Now h))
                                 (v1alpha1.SetState status cr)))
     = Some status
  /\ is_available (AgentPtr (v1alpha1.SetConditions (xpv1.Available (Now h))
                               (v1alpha1.SetState status cr)))
  /\ desired_spec (AgentPtr (v1alpha1.SetConditions (xpv1.Available (Now h))
                               (v1alpha1.SetState status cr)))
     = desired_spec (AgentPtr cr).
Proof.
  intros Hsvc Haccount Hcreate Hstatus Hlookup Hfound Hhealthy.
  destruct (Create_succeeded_run _ _ _ _ _ _ _ _ Hsvc Hcreate Hstatus) as [_ Hcreated].
  rewrite Hcreated.
  destruct (Observe_found_run h c ctx (v1alpha1.SetState status cr)
              svc account found response' None
              Hsvc Haccount Hlookup _ eq_refl Hfound Hhealthy) as [_ Hobserved].
  cbn in Hobserved. repeat split; try assumption.
  eexists. split; [reflexivity |].
  apply (GetCondition_SetConditions _ (xpv1.Available (Now h))).
Qed.

Lemma Create_then_Observe_witness :
  remote_health (example.remote_agent (example.health_of "HEALTHY")) = Some "HEALTHY"
  /\ object (snd (call (Observe example.h
                                (example.client example.healthy example.healthy)
                                example.ctx)
                       (object (snd (call (Create example.h
                                            (example.client example.healthy example.healthy)
                                            example.ctx)
                                          (AgentPtr example.cr))))))
     = AgentPtr (v1alpha1.SetConditions (xpv1.Available 1667433600)
                   (v1alpha1.SetState "HEALTHY" example.cr)).
Proof.
  split; [reflexivity |].
  exact (proj1 (Create_then_Observe
                  example.h (example.client example.healthy example.healthy)
                  example.ctx example.cr
                  {| AgentApi := example.api example.healthy example.healthy |}
                  "nYY7inrwTrqqa3r1a_-krg" "HEALTHY"
                  (example.remote_agent (example.health_of "HEALTHY"))
                  (example.remote_agent (example.health_of "HEALTHY"))
                  (example.response_of 200 None) (example.response_of 200 None)
                  eq_refl eq_refl eq_refl eq_refl eq_refl eq_refl eq_refl)).
Defined.
